(** * Leave-Search backend: input validation, geo classification, content
      moderation and the cache-aside search path.

    A shallow embedding of the Go backend (packages [api], [filter], [ip],
    [search] and [cache]) together with the properties its design document
    states about them.  Go strings are byte strings, modelled by [string]
    (a list of 8-bit [ascii]); Go [int] is the 64-bit signed integer,
    modelled by [Z] with the range written out where it matters. *)

From Stdlib Require Import ZArith String Ascii List Bool Lia.
From Stdlib Require Import Numbers.DecimalString Strings.Byte.
From Stdlib Require Numbers.DecimalPos Numbers.DecimalZ.
From stdpp Require Import base option list strings gmap.

Local Open Scope string_scope.
Local Open Scope list_scope.
Local Open Scope Z_scope.

(** ** Bytes and byte strings *)

Definition byte_val (c : ascii) : N := N_of_ascii c.

Definition is_byte (n : N) (c : ascii) : bool := N.eqb (byte_val c) n.

Definition byte_in (lo hi : N) (c : ascii) : bool :=
  N.leb lo (byte_val c) && N.leb (byte_val c) hi.

Fixpoint str_take (n : nat) (s : string) : string :=
  match n, s with
  | S n', String c s' => String c (str_take n' s')
  | _, _ => EmptyString
  end.

Fixpoint str_rev_append (s acc : string) : string :=
  match s with
  | EmptyString => acc
  | String c s' => str_rev_append s' (String c acc)
  end.

Definition str_rev (s : string) : string := str_rev_append s EmptyString.

Definition str_len (s : string) : Z := Z.of_nat (String.length s).

(** ** The Go standard library functions the backend calls *)

Module unicode.

(** [unicode.IsSpace] restricted to one byte: tab, line feed, vertical tab,
    form feed, carriage return and space. *)
Definition asciiSpace (c : ascii) : bool :=
  byte_in 9 13 c || is_byte 32 c.

(** The two-byte UTF-8 encodings of white space: U+0085 and U+00A0. *)
Definition space2 (c0 c1 : ascii) : bool :=
  is_byte 194 c0 && (is_byte 133 c1 || is_byte 160 c1).

(** The three-byte UTF-8 encodings of white space: U+1680, U+2000..U+200A,
    U+2028, U+2029, U+202F, U+205F and U+3000. *)
Definition space3 (c0 c1 c2 : ascii) : bool :=
  (is_byte 225 c0 && is_byte 154 c1 && is_byte 128 c2)
  || (is_byte 226 c0 && is_byte 128 c1
      && (byte_in 128 138 c2 || is_byte 168 c2 || is_byte 169 c2 || is_byte 175 c2))
  || (is_byte 226 c0 && is_byte 129 c1 && is_byte 159 c2)
  || (is_byte 227 c0 && is_byte 128 c1 && is_byte 128 c2).

End unicode.

Module strings.

Import unicode.

(** Leading white space removed, rune by rune.  A white-space rune is
    recognised by its UTF-8 encoding; any other byte sequence, valid or
    not, decodes to a rune that is not white space and stops the scan. *)
Fixpoint TrimLeftSpace (s : string) : string :=
  match s with
  | EmptyString => s
  | String c0 s1 =>
    if asciiSpace c0 then TrimLeftSpace s1
    else match s1 with
         | EmptyString => s
         | String c1 s2 =>
           if space2 c0 c1 then TrimLeftSpace s2
           else match s2 with
                | EmptyString => s
                | String c2 s3 =>
                  if space3 c0 c1 c2 then TrimLeftSpace s3 else s
                end
         end
  end.

(** The same scan from the end, on the reversed string: the bytes of a
    rune arrive last byte first. *)
Fixpoint TrimLeftSpace_rev (r : string) : string :=
  match r with
  | EmptyString => r
  | String c0 r1 =>
    if asciiSpace c0 then TrimLeftSpace_rev r1
    else match r1 with
         | EmptyString => r
         | String c1 r2 =>
           if space2 c1 c0 then TrimLeftSpace_rev r2
           else match r2 with
                | EmptyString => r
                | String c2 r3 =>
                  if space3 c2 c1 c0 then TrimLeftSpace_rev r3 else r
                end
         end
  end.

Definition TrimRightSpace (s : string) : string :=
  str_rev (TrimLeftSpace_rev (str_rev s)).

(** [strings.TrimSpace]: all leading and trailing Unicode white space
    removed. *)
Definition TrimSpace (s : string) : string :=
  TrimRightSpace (TrimLeftSpace s).

(** [strings.Contains s substr]: [substr] occurs in [s]; the empty string
    occurs everywhere. *)
Fixpoint Contains (s substr : string) : bool :=
  String.prefix substr s
  || match s with
     | EmptyString => false
     | String _ s' => Contains s' substr
     end.

(** [strings.Fields]: the maximal runs of bytes between white-space runes.
    [cur] holds the current field reversed. *)
Definition flush_field (cur : string) (acc : list string) : list string :=
  match cur with
  | EmptyString => acc
  | _ => str_rev cur :: acc
  end.

Fixpoint Fields_go (s cur : string) (acc : list string) : list string :=
  match s with
  | EmptyString => List.rev (flush_field cur acc)
  | String c0 s1 =>
    if asciiSpace c0 then Fields_go s1 EmptyString (flush_field cur acc)
    else match s1 with
         | EmptyString => List.rev (flush_field (String c0 cur) acc)
         | String c1 s2 =>
           if space2 c0 c1 then Fields_go s2 EmptyString (flush_field cur acc)
           else match s2 with
                | EmptyString => Fields_go s1 (String c0 cur) acc
                | String c2 s3 =>
                  if space3 c0 c1 c2
                  then Fields_go s3 EmptyString (flush_field cur acc)
                  else Fields_go s1 (String c0 cur) acc
                end
         end
  end.

Definition Fields (s : string) : list string := Fields_go s EmptyString [].

(** [strings.Join]. *)
Fixpoint Join (elems : list string) (sep : string) : string :=
  match elems with
  | [] => EmptyString
  | [e] => e
  | e :: rest => e +:+ sep +:+ Join rest sep
  end.

End strings.

Module html.

(** [html.EscapeString]: the five markup-significant bytes are replaced by
    entities, every other byte is kept. *)
Definition escape_byte (c : ascii) : string :=
  if is_byte 38 c then "&amp;"
  else if is_byte 39 c then "&#39;"
  else if is_byte 60 c then "&lt;"
  else if is_byte 62 c then "&gt;"
  else if is_byte 34 c then "&#34;"
  else String c EmptyString.

Definition special (c : ascii) : bool :=
  is_byte 38 c || is_byte 39 c || is_byte 60 c || is_byte 62 c || is_byte 34 c.

Fixpoint EscapeString (s : string) : string :=
  match s with
  | EmptyString => EmptyString
  | String c s' => escape_byte c +:+ EscapeString s'
  end.

End html.

Module strconv.

Inductive NumError := ErrSyntax | ErrRange.

Definition maxInt : Z := 2 ^ 63 - 1.
Definition minInt : Z := - 2 ^ 63.

Definition digit (c : ascii) : option Z :=
  if byte_in 48 57 c then Some (Z.of_N (byte_val c) - 48) else None.

(** The digits of [s] accumulated in base ten on top of [n]; [None] when a
    byte is not a decimal digit. *)
Fixpoint digits (s : string) (n : Z) : option Z :=
  match s with
  | EmptyString => Some n
  | String c s' =>
    match digit c with
    | Some d => digits s' (n * 10 + d)
    | None => None
    end
  end.

(** The sign and the digits of a decimal numeral: [None] when the text is
    not an optional sign followed by one or more decimal digits. *)
Definition numeral (s : string) : option (bool * Z) :=
  let '(neg, body) :=
    match s with
    | String c s' =>
      if is_byte 45 c then (true, s')
      else if is_byte 43 c then (false, s')
      else (false, s)
    | EmptyString => (false, s)
    end in
  match body with
  | EmptyString => None
  | _ => un ← digits body 0; Some (neg, un)
  end.

(** [strconv.Atoi]: a syntax error on text that is not a decimal numeral;
    a value outside the 64-bit range is reported as a range error together
    with the nearest representable value. *)
Definition Atoi (s : string) : Z * option NumError :=
  match numeral s with
  | None => (0, Some ErrSyntax)
  | Some (neg, un) =>
    if negb neg && (maxInt <? un) then (maxInt, Some ErrRange)
    else if neg && (- minInt <? un) then (minInt, Some ErrRange)
    else (if neg then - un else un, None)
  end.

(** [strconv.Itoa], as used by the [%d] verb. *)
Definition Itoa (n : Z) : string := NilZero.string_of_int (Z.to_int n).

End strconv.

(** ** Package ip: the geo classifier (ip_service.go) *)

Module net.

(** [net.IP] is a byte slice: four bytes for IPv4, sixteen for IPv6. *)
Definition IP : Type := list Byte.byte.

Definition octet (b : Byte.byte) : Z := Z.of_N (Byte.to_N b).

Definition IPv6loopback : IP :=
  [x00; x00; x00; x00; x00; x00; x00; x00;
   x00; x00; x00; x00; x00; x00; x00; x01].

Definition isZeros (p : list Byte.byte) : bool :=
  forallb (fun b => octet b =? 0) p.

(** [IP.To4]: the four-byte form of an IPv4 address, also when it is held
    as an IPv4-mapped IPv6 address; [None] stands for the nil slice. *)
Definition To4 (ip : IP) : option IP :=
  if (length ip =? 4)%nat then Some ip
  else if (length ip =? 16)%nat && isZeros (take 10 ip)
          && bool_decide (octet <$> ip !! 10%nat = Some 255)
          && bool_decide (octet <$> ip !! 11%nat = Some 255)
  then Some (drop 12 ip)
  else None.

(** [bytealg.Equal]: the same bytes at the same positions. *)
Definition bytes_eq (a b : list Byte.byte) : bool :=
  bool_decide (octet <$> a = octet <$> b).

Definition v4InV6Prefix : list Byte.byte :=
  [x00; x00; x00; x00; x00; x00; x00; x00; x00; x00; xff; xff].

Definition Equal (ip x : IP) : bool :=
  if (length ip =? length x)%nat then bytes_eq ip x
  else if (length ip =? 4)%nat && (length x =? 16)%nat
  then bytes_eq (take 12 x) v4InV6Prefix && bytes_eq ip (drop 12 x)
  else if (length ip =? 16)%nat && (length x =? 4)%nat
  then bytes_eq (take 12 ip) v4InV6Prefix && bytes_eq (drop 12 ip) x
  else false.

(** [ip4[i]] on a slice known to be non-nil; an index out of range would
    panic, which [To4] excludes for [i < 4]. *)
Definition at_ (ip4 : IP) (i : nat) : Z := default 0 (octet <$> ip4 !! i).

Definition IsLoopback (ip : IP) : bool :=
  match To4 ip with
  | Some ip4 => at_ ip4 0 =? 127
  | None => Equal ip IPv6loopback
  end.

(** What the classifier needs of the address parser: [net.ParseIP], with
    [None] for the nil result on text that is not an IP address; the text
    of the IPv6 loopback address parses to that address. *)
Class Parser := {
  ParseIP : string → option IP;
  ParseIP_loopback : ParseIP "::1" = Some IPv6loopback;
}.

End net.

Module ip.

Import net.

Definition isPrivateIP (ip : IP) : bool :=
  match To4 ip with
  | Some ip4 =>
    (at_ ip4 0 =? 10)
    || ((at_ ip4 0 =? 172) && (16 <=? at_ ip4 1) && (at_ ip4 1 <=? 31))
    || ((at_ ip4 0 =? 192) && (at_ ip4 1 =? 168))
  | None => false
  end.

Definition IsChinaMainland `{Parser} (ipStr : string) : bool :=
  if String.eqb ipStr "::1" then true
  else match ParseIP ipStr with
       | None => false
       | Some ip =>
         if IsLoopback ip || isPrivateIP ip then true
         else match To4 ip with
              | Some ip4 =>
                if (1 <=? at_ ip4 0) && (at_ ip4 0 <=? 100) then true
                else false
              | None => false
              end
       end.

End ip.

(** ** Package search: the data model (service.go) *)

(** The Go types the model keeps abstract: [float64] with its conversions
    to integers, [time.Time] with its zero value, and the dynamic values
    ([interface{}]) a fetch function may return, with the boxing of
    a string and their JSON encoding. *)
Class GoTypes := {
  float64 : Type;
  int64_of_float64 : float64 → Z;
  int_of_float64 : float64 → Z;
  Time : Type;
  zeroTime : Time;
  any : Type;
  any_of_string : string → any;
  Marshal_any : any → option string;
}.

Module model.
Section model.
Context `{GoTypes}.

Record Document := {
  ID : string;
  Title : string;
  Content : string;
  URL : string;
  Score : float64;
  Timestamp : Time;
}.

Record SearchResult := {
  Total : Z;
  Hits : list Document;
  Took : Z;
  Suggestions : list string;
}.

Definition set_Hits (hits : list Document) (r : SearchResult) : SearchResult :=
  {| Total := Total r; Hits := hits; Took := Took r;
     Suggestions := Suggestions r |}.

End model.
End model.
Export model.

(** ** Package filter: the content moderator *)

Module filter.
Section filter.
Context `{GoTypes}.

Record Service := { blockedDomains : gmap string bool }.

Definition defaultDomains : list string :=
  ["example-adult-site.com"; "bad-content.org"; "xxx-test.net";
   "adult.com"; "porn.com"].

Definition loadDefaultBlacklist (s : Service) : Service :=
  {| blockedDomains :=
       foldl (fun m d => <[d := true]> m) (blockedDomains s) defaultDomains |}.

Definition NewService : Service :=
  loadDefaultBlacklist {| blockedDomains := ∅ |}.

Definition sensitiveKeywords : list string :=
  ["成人"; "色情"; "赌博"; "xxx"; "porn"].

(** The loop over the map visits every key, whatever its value; the result
    does not depend on the order of the visit. *)
Definition isBlocked (s : Service) (doc : Document) : bool :=
  if existsb (fun domain =>
                strings.Contains (URL doc) domain
                || strings.Contains (Title doc) domain)
             (map_to_list (blockedDomains s)).*1
  then true
  else if existsb (fun kw =>
                     strings.Contains (Title doc) kw
                     || strings.Contains (Content doc) kw)
                  sensitiveKeywords
  then true
  else false.

(** The state of the loop of [Filter]: the documents kept so far and the
    number of documents dropped.  The nil slice the loop starts from and an
    empty slice are both the empty list. *)
Definition Filter_step (s : Service) (st : list Document * Z) (doc : Document)
  : list Document * Z :=
  let '(safeResults, filteredCount) := st in
  if isBlocked s doc then (safeResults, filteredCount + 1)
  else (safeResults ++ [doc], filteredCount).

Definition Filter (s : Service) (results : list Document) : list Document * Z :=
  foldl (Filter_step s) ([], 0) results.

End filter.
End filter.

(** ** The collaborators: Redis, Elasticsearch, pointers and goroutines *)

(** A Go [error] value, identified by its text. *)
Definition error : Type := string.

(** [time.Duration] counts nanoseconds. *)
Module time.
Definition Millisecond : Z := 1000000.
Definition Second : Z := 1000000000.
Definition Minute : Z := 60 * 1000000000.
End time.

Module redis.

(** The store behind the client: whether it answers at all, and for each
    live key its value and the time to live the store was given for it, in
    nanoseconds, 0 for an entry that never expires.  Expiry is the store's
    own business and is not an operation of the backend. *)
Record Client := {
  reachable : bool;
  entries : gmap string (string * Z);
}.

Definition Nil : error := "redis: nil".
Definition Unreachable : error := "redis: connection refused".

(** [client.Get(ctx, key).Result()]. *)
Definition Get (c : Client) (key : string) : string * option error :=
  if reachable c then
    match entries c !! key with
    | Some (val, _) => (val, None)
    | None => ("", Some Nil)
    end
  else ("", Some Unreachable).

(** [KeepTTL], the expiration that asks the store to keep the time to
    live the key already has. *)
Definition KeepTTL : Z := -1.

(** [usePrecise], [formatMs] and [formatSec] of the client: an expiration
    that is not a whole number of seconds goes out in milliseconds, and a
    positive one below the unit goes out as one unit. *)
Definition usePrecise (dur : Z) : bool :=
  (dur <? time.Second) || negb (dur `rem` time.Second =? 0).

Definition formatMs (dur : Z) : Z :=
  if (0 <? dur) && (dur <? time.Millisecond) then 1
  else dur `quot` time.Millisecond.

Definition formatSec (dur : Z) : Z :=
  if (0 <? dur) && (dur <? time.Second) then 1
  else dur `quot` time.Second.

(** The time to live the store ends up with for a [SET] sent with
    [expiration]: [PX] or [EX] for a positive one, [KEEPTTL] for
    [KeepTTL], where [previous] is the time to live of the entry being
    replaced, and none for any other. *)
Definition expiry (expiration : Z) (previous : option Z) : Z :=
  if 0 <? expiration then
    if usePrecise expiration
    then formatMs expiration * time.Millisecond
    else formatSec expiration * time.Second
  else if expiration =? KeepTTL then default 0 previous
  else 0.

(** [client.Set(ctx, key, value, ttl)], its status discarded by every
    caller in the backend. *)
Definition Set_ (c : Client) (key value : string) (ttl : Z) : Client :=
  if reachable c
  then {| reachable := true;
          entries := <[key := (value, expiry ttl (snd <$> entries c !! key))]>
                       (entries c) |}
  else c.

End redis.

Module es.
Section es.
Context `{GoTypes}.

(** A decoded JSON value, as [encoding/json] stores it in [interface{}]. *)
#[local] Unset Elimination Schemes.
Inductive json :=
| JNull
| JBool (b : bool)
| JNum (x : float64)
| JStr (s : string)
| JArr (l : list json)
| JObj (m : list (string * json)).
#[local] Set Elimination Schemes.

(** [m[key]] on a decoded object: the binding written last wins; [None]
    is the nil interface of an absent key. *)
Fixpoint index (m : list (string * json)) (key : string) : option json :=
  match m with
  | [] => None
  | (k, v) :: m' =>
    match index m' key with
    | Some v' => Some v'
    | None => if String.eqb k key then Some v else None
    end
  end.

(** Type assertions; [None] is the run-time panic of a failed assertion. *)
Definition as_map (v : option json) : option (list (string * json)) :=
  match v with Some (JObj m) => Some m | _ => None end.
Definition as_slice (v : option json) : option (list json) :=
  match v with Some (JArr l) => Some l | _ => None end.
Definition as_float64 (v : option json) : option float64 :=
  match v with Some (JNum x) => Some x | _ => None end.
Definition as_string (v : option json) : option string :=
  match v with Some (JStr s) => Some s | _ => None end.

(** The request body built by [Search] and the options of the call. *)
Record QueryMap := {
  from : Z;
  size : Z;
  multi_match_query : string;
  multi_match_fields : list string;
  highlight_fields : list string;
}.

Record SearchRequest := {
  WithIndex : string;
  WithBody : QueryMap;
  WithTrackTotalHits : bool;
}.

(** What a call of [esClient.Search] can come back with: an error of the
    transport (a cancelled context included), or a response with its
    status class, its printed form, and the outcome of decoding its body
    into a [map[string]interface{}]. *)
Inductive Reply :=
| Failed (err : error)
| Response (IsError : bool) (String_ : string)
           (Decode : error + list (string * json)).

End es.
End es.

(** The JSON encoding of a [SearchResult] as stored in the cache. *)
Class Codec `{GoTypes} := {
  Marshal : SearchResult → option string;
  Unmarshal : string → option SearchResult;
}.

Module runtime.
Section runtime.
Context `{GoTypes}.

(** A pointer to a [SearchResult]. *)
Definition ptr : Type := nat.

(** A goroutine started with [go func() {...}()] and not yet run,
    recorded with the variables its closure captured. *)
Inductive Goroutine :=
| cacheResult (cacheKey : string) (result : ptr)
| cacheData (key : string) (data : any) (ttl : Z).

Record World := {
  rdb : redis.Client;
  es_reply : es.SearchRequest → es.Reply;
  es_calls : list es.SearchRequest;
  heap : gmap ptr SearchResult;
  goroutines : list Goroutine;
}.

(** How a call ends: with a value, with an error, or in a panic. *)
Inductive result (A : Type) :=
| Ok (a : A)
| Err (e : error)
| Panic.
Global Arguments Ok {A} a.
Global Arguments Err {A} e.
Global Arguments Panic {A}.

Definition M (A : Type) : Type := World → result A * World.

Definition ret {A} (a : A) : M A := fun w => (Ok a, w).
Definition fail {A} (e : error) : M A := fun w => (Err e, w).
Definition panic {A} : M A := fun w => (Panic, w).

Definition bind {A B} (m : M A) (k : A → M B) : M B :=
  fun w =>
    match m w with
    | (Ok a, w') => k a w'
    | (Err e, w') => (Err e, w')
    | (Panic, w') => (Panic, w')
    end.

(** [v, err := f()]: the error, if any, is handed to the caller's code. *)
Definition try {A} (m : M A) : M (A + error) :=
  fun w =>
    match m w with
    | (Ok a, w') => (Ok (inl a), w')
    | (Err e, w') => (Ok (inr e), w')
    | (Panic, w') => (Panic, w')
    end.

Definition set_rdb (c : redis.Client) (w : World) : World :=
  {| rdb := c; es_reply := es_reply w; es_calls := es_calls w;
     heap := heap w; goroutines := goroutines w |}.
Definition set_es_calls (l : list es.SearchRequest) (w : World) : World :=
  {| rdb := rdb w; es_reply := es_reply w; es_calls := l;
     heap := heap w; goroutines := goroutines w |}.
Definition set_heap (h : gmap ptr SearchResult) (w : World) : World :=
  {| rdb := rdb w; es_reply := es_reply w; es_calls := es_calls w;
     heap := h; goroutines := goroutines w |}.
Definition set_goroutines (g : list Goroutine) (w : World) : World :=
  {| rdb := rdb w; es_reply := es_reply w; es_calls := es_calls w;
     heap := heap w; goroutines := g |}.

Definition redis_Get (key : string) : M (string * option error) :=
  fun w => (Ok (redis.Get (rdb w) key), w).

Definition redis_Set (key value : string) (ttl : Z) : M unit :=
  fun w => (Ok (), set_rdb (redis.Set_ (rdb w) key value ttl) w).

Definition es_Search (req : es.SearchRequest) : M es.Reply :=
  fun w => (Ok (es_reply w req), set_es_calls (es_calls w ++ [req]) w).

(** [&SearchResult{...}]: a fresh object. *)
Definition new (r : SearchResult) : M ptr :=
  fun w => let p := fresh (dom (heap w)) in
           (Ok p, set_heap (<[p := r]> (heap w)) w).

(** [*p]; a nil or dangling pointer panics. *)
Definition load (p : ptr) : M SearchResult :=
  fun w => match heap w !! p with
           | Some r => (Ok r, w)
           | None => (Panic, w)
           end.

Definition store (p : ptr) (r : SearchResult) : M unit :=
  fun w => match heap w !! p with
           | Some _ => (Ok (), set_heap (<[p := r]> (heap w)) w)
           | None => (Panic, w)
           end.

Definition go (g : Goroutine) : M unit :=
  fun w => (Ok (), set_goroutines (goroutines w ++ [g]) w).

End runtime.
End runtime.

Notation "x <- m ;; k" := (runtime.bind m (fun x => k))
  (at level 100, m at next level, right associativity).
Notation "m ;;; k" := (runtime.bind m (fun _ => k))
  (at level 100, right associativity).

(** The detached cache writes, run at some later time by the scheduler. *)
Module sched.
Section sched.
Context `{GoTypes} `{!Codec}.
Import runtime.

(** [json.Marshal] with its error dropped leaves a nil byte slice, which
    is stored as the empty value. *)
Definition run (g : Goroutine) : M unit :=
  match g with
  | cacheResult cacheKey result =>
    r <- load result ;;
    let data := default "" (Marshal r) in
    redis_Set cacheKey data (5 * time.Minute)
  | cacheData key data ttl =>
    let bytes := default "" (Marshal_any data) in
    redis_Set key bytes ttl
  end.

(** The goroutine at position [i] of the pending list runs to its end. *)
Definition schedule (i : nat) : M unit :=
  fun w =>
    match goroutines w !! i with
    | Some g => run g (set_goroutines (delete i (goroutines w)) w)
    | None => (Ok (), w)
    end.

End sched.
End sched.

(** ** Package cache: the cache-aside helper *)

Module cache.
Section cache.
Context `{GoTypes}.
Import runtime.

Definition GetOrSet (key : string) (ttl : Z) (fetch : M any) : M any :=
  got <- redis_Get key ;;
  let '(val, err) := got in
  match err with
  | None => ret (any_of_string val)
  | Some _ =>
    r <- try fetch ;;
    match r with
    | inr err => fail err
    | inl data =>
      go (cacheData key data ttl) ;;;
      ret data
    end
  end.

End cache.
End cache.

(** ** Package search: the query orchestrator (service.go) *)

Module search.
Section search.
Context `{GoTypes} `{!Codec}.
Import runtime.

(** Go's [int] arithmetic wraps around at 64 bits. *)
Definition wrap64 (z : Z) : Z := (z + 2 ^ 63) mod 2 ^ 64 - 2 ^ 63.

Definition getSuggestions (query : string) : list string :=
  [query +:+ " tutorial"; query +:+ " example"; query +:+ " docs"].

Definition parseHit (hit : es.json) : option Document :=
  h ← es.as_map (Some hit);
  source ← es.as_map (es.index h "_source");
  id ← es.as_string (es.index h "_id");
  title ← es.as_string (es.index source "title");
  content ← es.as_string (es.index source "content");
  url ← es.as_string (es.index source "url");
  score ← es.as_float64 (es.index h "_score");
  Some {| ID := id; Title := title; Content := content; URL := url;
          Score := score; Timestamp := zeroTime |}.

(** Step 5 of [Search]: every type assertion must hold, or the call
    panics ([None]). *)
Definition parseResponse (r : list (string * es.json))
  : option (Z * Z * list Document) :=
  hits ← es.as_map (es.index r "hits");
  total_ ← es.as_map (es.index hits "total");
  value ← es.as_float64 (es.index total_ "value");
  let total := int64_of_float64 value in
  took_ ← es.as_float64 (es.index r "took");
  let took := int_of_float64 took_ in
  hitList ← es.as_slice (es.index hits "hits");
  documents ← mapM parseHit hitList;
  Some (total, took, documents).

Definition cacheKey (query : string) (page size : Z) : string :=
  "search:" +:+ query +:+ ":" +:+ strconv.Itoa page +:+ ":" +:+ strconv.Itoa size.

(** [Search].  Encoding the query map cannot fail, so that error return
    has no counterpart here; closing the response body has no effect on
    the model. *)
Definition Search (query : string) (page size : Z) : M ptr :=
  let cacheKey := cacheKey query page size in
  got <- redis_Get cacheKey ;;
  let '(val, err) := got in
  match (match err with None => Unmarshal val | Some _ => None end) with
  | Some result => new result
  | None =>
    let words := strings.Fields query in
    let finalQuery := strings.Join words " " in
    let queryMap :=
      {| es.from := wrap64 (wrap64 (page - 1) * size);
         es.size := size;
         es.multi_match_query := finalQuery;
         es.multi_match_fields := ["title^3"; "content"];
         es.highlight_fields := ["title"; "content"] |} in
    res <- es_Search {| es.WithIndex := "webpages";
                        es.WithBody := queryMap;
                        es.WithTrackTotalHits := true |} ;;
    match res with
    | es.Failed err => fail err
    | es.Response IsError String_ Decode =>
      if IsError then fail ("search request failed: " +:+ String_)
      else match Decode with
           | inl err => fail err
           | inr r =>
             match parseResponse r with
             | None => panic
             | Some (total, took, documents) =>
               result <- new {| Total := total; Hits := documents;
                                Took := took;
                                Suggestions := getSuggestions query |} ;;
               go (cacheResult cacheKey result) ;;;
               ret result
             end
           end
    end
  end.

End search.
End search.

(** ** Package api: the HTTP handler (handlers.go) *)

Module api.

(** Input validation. *)

Definition validateSearchInput (query : string) : string * bool :=
  let query := strings.TrimSpace query in
  if String.eqb query "" then ("", false)
  else
    let query := if 100 <? str_len query then str_take 100 query else query in
    let query := html.EscapeString query in
    (query, true).

Definition validatePagination (pageStr sizeStr : string) : Z * Z :=
  let '(page, err) := strconv.Atoi pageStr in
  let page := if bool_decide (err ≠ None) || (page <? 1) then 1 else page in
  let '(size, err) := strconv.Atoi sizeStr in
  let size := if bool_decide (err ≠ None) || (size <? 1) then 10 else size in
  let size := if 50 <? size then 50 else size in
  (page, size).

Section api.
Context `{GoTypes} `{!Codec} `{!net.Parser}.
Import runtime.

(** What the handler reads of [*gin.Context]: the first value of each
    query parameter and the caller's address. *)
Record Context_ := {
  params : gmap string string;
  ClientIP : string;
}.

Definition Query (c : Context_) (key : string) : string :=
  default "" (params c !! key).

Definition DefaultQuery (c : Context_) (key defaultValue : string) : string :=
  default defaultValue (params c !! key).

Record Handler := { h_filter : filter.Service }.

Record SearchResponse := {
  SearchResult_ : ptr;
  Filtered : bool;
  Message : string;
}.

(** The JSON documents the handler writes: [gin.H{"error": ...}], or a
    [SearchResponse] with the fields of the embedded result as they are
    when it is rendered. *)
Inductive Body :=
| H_error (msg : string)
| SearchJSON (r : SearchResult) (filtered : bool) (message : string).

Record Response := { status : Z; body : Body }.

Definition StatusOK : Z := 200.
Definition StatusBadRequest : Z := 400.
Definition StatusInternalServerError : Z := 500.

(** The message of a response from which hits were withheld. *)
Definition notice : string := "根据相关法律法规和政策，部分搜索结果未予显示。".

Definition JSON (code : Z) (response : SearchResponse) : M Response :=
  r <- load (SearchResult_ response) ;;
  ret {| status := code;
         body := SearchJSON r (Filtered response) (Message response) |}.

Definition Search (h : Handler) (c : Context_) : M Response :=
  let rawQuery := Query c "q" in
  let '(query, valid) := validateSearchInput rawQuery in
  if negb valid
  then ret {| status := StatusBadRequest;
              body := H_error "invalid query parameter" |}
  else
    let '(page, size) :=
      validatePagination (DefaultQuery c "page" "1")
                         (DefaultQuery c "size" "10") in
    res <- try (search.Search query page size) ;;
    match res with
    | inr _ => ret {| status := StatusInternalServerError;
                      body := H_error "internal server error" |}
    | inl result =>
      let clientIP := ClientIP c in
      let isCN := ip.IsChinaMainland clientIP in
      let response :=
        {| SearchResult_ := result; Filtered := false; Message := "" |} in
      if isCN then
        r <- load result ;;
        let '(filteredHits, count) := filter.Filter (h_filter h) (Hits r) in
        if 0 <? count then
          store result (set_Hits filteredHits r) ;;;
          JSON StatusOK {| SearchResult_ := result; Filtered := true;
                           Message := "根据相关法律法规和政策，部分搜索结果未予显示。" |}
        else JSON StatusOK response
      else JSON StatusOK response
    end.

End api.
End api.

(** ** The vocabulary of the properties *)

Fixpoint all_bytes (P : ascii → bool) (s : string) : bool :=
  match s with
  | EmptyString => true
  | String c s' => P c && all_bytes P s'
  end.

Fixpoint str_repeat (c : ascii) (n : nat) : string :=
  match n with
  | O => EmptyString
  | S n' => String c (str_repeat c n')
  end.

(** The integer a decimal numeral denotes, whatever its size. *)
Definition requested (s : string) : option Z :=
  match strconv.numeral s with
  | Some (neg, un) => Some (if neg then - un else un)
  | None => None
  end.

(** The static range table of [IsChinaMainland]: IPv4 addresses whose
    first byte is between 1 and 100. *)
Definition in_table (ip : net.IP) : bool :=
  match net.To4 ip with
  | Some ip4 => (1 <=? net.at_ ip4 0) && (net.at_ ip4 0 <=? 100)
  | None => false
  end.

Section moderation.
Context `{GoTypes}.
Implicit Types (s : filter.Service) (doc : Document).

(** The documents [Filter] keeps and the documents it drops. *)
Definition kept_by s doc : Prop := filter.isBlocked s doc = false.
Definition dropped_by s doc : Prop := filter.isBlocked s doc = true.

#[global] Instance kept_by_dec s doc : Decision (kept_by s doc).
Proof. unfold kept_by. apply _. Defined.
#[global] Instance dropped_by_dec s doc : Decision (dropped_by s doc).
Proof. unfold dropped_by. apply _. Defined.

(** The keyword half of [isBlocked]. *)
Definition hasKeyword doc : bool :=
  existsb (fun kw => strings.Contains (Title doc) kw
                     || strings.Contains (Content doc) kw)
          filter.sensitiveKeywords.

End moderation.

Section caching.
Context `{GoTypes} `{!Codec}.
Import runtime.

(** What the cache read at the start of [Search] finds: the result encoded
    under the key, when the read succeeds and the value decodes. *)
Definition cached (w : World) (key : string) : option SearchResult :=
  match redis.Get (rdb w) key with
  | (val, None) => Unmarshal val
  | (_, Some _) => None
  end.

(** The request [Search] sends to the backend. *)
Definition request_of (query : string) (page size : Z) : es.SearchRequest :=
  {| es.WithIndex := "webpages";
     es.WithBody :=
       {| es.from := search.wrap64 (search.wrap64 (page - 1) * size);
          es.size := size;
          es.multi_match_query := strings.Join (strings.Fields query) " ";
          es.multi_match_fields := ["title^3"; "content"];
          es.highlight_fields := ["title"; "content"] |};
     es.WithTrackTotalHits := true |}.

(** The error [Search] returns for a backend query that failed: in the
    transport, with an error status, or with a body that does not decode. *)
Definition backend_error (reply : es.Reply) : option error :=
  match reply with
  | es.Failed err => Some err
  | es.Response true String_ _ => Some ("search request failed: " +:+ String_)
  | es.Response false _ (inl err) => Some err
  | es.Response false _ (inr _) => None
  end.

(** The response for a result as the backend produced it. *)
Definition plain (r : SearchResult) : api.Response :=
  {| api.status := api.StatusOK; api.body := api.SearchJSON r false "" |}.

(** The response for a result some of whose documents were withheld. *)
Definition withheld (r : SearchResult) (kept : list Document) : api.Response :=
  {| api.status := api.StatusOK;
     api.body := api.SearchJSON (set_Hits kept r) true api.notice |}.

End caching.

(** ** A small instance of the abstract types, for evaluating examples *)

Module sample.

(** Numbers are integral, times are counted from zero, and a dynamic value
    is a string that encodes as itself. *)
#[local] Instance Types : GoTypes := {|
  float64 := Z;
  int64_of_float64 := id;
  int_of_float64 := id;
  Time := Z;
  zeroTime := 0;
  any := string;
  any_of_string := id;
  Marshal_any := Some;
|}.

Definition doc (id title content url : string) : Document :=
  {| ID := id; Title := title; Content := content; URL := url;
     Score := 1; Timestamp := zeroTime |}.

(** The fields of dotted-decimal text: four numbers of at most 255 without
    leading zeros, separated by single dots. *)
Fixpoint parseIPv4Fields (s : string) (val : Z) (digLen : nat) (fields : list Z)
  : option (list Z) :=
  match s with
  | EmptyString =>
    if (digLen =? 0)%nat || (length fields <? 3)%nat then None
    else Some (fields ++ [val])
  | String c s' =>
    match strconv.digit c with
    | Some d =>
      if (digLen =? 1)%nat && (val =? 0) then None
      else let val := val * 10 + d in
           if 255 <? val then None
           else parseIPv4Fields s' val (S digLen) fields
    | None =>
      if is_byte 46 c && negb (digLen =? 0)%nat && (length fields <? 3)%nat
      then parseIPv4Fields s' 0 0%nat (fields ++ [val])
      else None
    end
  end.

Definition to_byte (z : Z) : Byte.byte := default x00 (Byte.of_N (Z.to_N z)).

(** An address parser for examples: dotted-decimal IPv4 text, returned in
    the sixteen-byte form, and the text of the IPv6 loopback address. *)
Definition parse (s : string) : option net.IP :=
  if String.eqb s "::1" then Some net.IPv6loopback
  else fields ← parseIPv4Fields s 0 0%nat [];
       Some (net.v4InV6Prefix ++ (to_byte <$> fields)).

#[local] Instance Parser : net.Parser :=
  {| net.ParseIP := parse; net.ParseIP_loopback := eq_refl |}.

(** A stand-in for the JSON encoding of a result, which keeps the total
    and the elapsed time only: the two numbers in decimal, separated by a
    space. *)
#[local] Instance Codec : Codec := {|
  Marshal r := Some (strconv.Itoa (Total r) +:+ " " +:+ strconv.Itoa (Took r));
  Unmarshal text :=
    match strings.Fields text with
    | [total; took] =>
      match strconv.Atoi total, strconv.Atoi took with
      | (n, None), (k, None) =>
        Some {| Total := n; Hits := []; Took := k; Suggestions := [] |}
      | _, _ => None
      end
    | _ => None
    end;
|}.

(** An Elasticsearch response with two hits, the second from a blocked
    domain. *)
Definition hit (id title content url : string) (score : Z) : es.json :=
  es.JObj [("_id", es.JStr id); ("_score", es.JNum score);
           ("_source", es.JObj [("title", es.JStr title);
                                ("content", es.JStr content);
                                ("url", es.JStr url)])].

Definition twoHits : list (string * es.json) :=
  [("took", es.JNum 3);
   ("hits", es.JObj
      [("total", es.JObj [("value", es.JNum 2)]);
       ("hits", es.JArr
          [hit "a1" "Go tour" "a tour of Go" "https://go.dev/tour" 1;
           hit "b2" "Free videos" "watch now" "http://adult.com/v" 1])])].


(** A world with an empty, reachable cache and nothing else going on,
    whose backend answers every query with [reply]. *)
Definition world (reply : es.Reply) : runtime.World :=
  {| runtime.rdb := {| redis.reachable := true; redis.entries := ∅ |};
     runtime.es_reply := fun _ => reply;
     runtime.es_calls := [];
     runtime.heap := ∅;
     runtime.goroutines := [] |}.

Definition request (q clientIP : string) : api.Context_ :=
  {| api.params := {[ "q" := q ]}; api.ClientIP := clientIP |}.

(** A filter service whose blocked-domain map was never filled. *)
Definition emptyService : filter.Service := {| filter.blockedDomains := ∅ |}.

Definition tourDoc : Document :=
  doc "a1" "Go tour" "a tour of Go" "https://go.dev/tour".
Definition videoDoc : Document :=
  doc "b2" "Free videos" "watch now" "http://adult.com/v".
Definition keywordDoc : Document :=
  doc "7" "porn" "" "https://example.org/".

(** Raw queries longer than 100 bytes: one wrapped in white space, one
    that is short once trimmed, one made of markup. *)
Definition longQuery : string := "  " +:+ str_repeat "q" 120 +:+ " ".
Definition paddedQuery : string := "a" +:+ str_repeat " " 100.
Definition markupQuery : string := str_repeat "<" 101.

Definition okReply : es.Reply := es.Response false "[200 OK]" (inr twoHits).
Definition downReply : es.Reply := es.Failed "dial tcp: connection refused".

(** What [Search] builds from [okReply] for the query "go". *)
Definition goResult : SearchResult :=
  {| Total := 2; Hits := [tourDoc; videoDoc]; Took := 3;
     Suggestions := ["go tutorial"; "go example"; "go docs"] |}.

(** A world whose cache already holds an encoded result for the first
    page of "go". *)
Definition cachedResult : SearchResult :=
  {| Total := 7; Hits := []; Took := 3; Suggestions := [] |}.

Definition warmWorld : runtime.World :=
  {| runtime.rdb :=
       {| redis.reachable := true;
          redis.entries := {[ "search:go:1:10" := ("7 3", 5 * time.Minute) ]} |};
     runtime.es_reply := fun _ => okReply;
     runtime.es_calls := [];
     runtime.heap := ∅;
     runtime.goroutines := [] |}.

Definition handler : api.Handler := {| api.h_filter := filter.NewService |}.

(** A world with a cold cache, and the same world after a search for the
    first page of "go" has fetched [goResult] from the backend. *)
Definition coldWorld : runtime.World := world okReply.
Definition fetchedWorld : runtime.World := (search.Search "go" 1 10 coldWorld).2.

(** What the stored encoding of [goResult] decodes to. *)
Definition decodedResult : SearchResult :=
  {| Total := 2; Hits := []; Took := 3; Suggestions := [] |}.

(** A request for "go" from a private address. *)
Definition localRequest : api.Context_ := request "go" "192.168.1.20".

End sample.

(** ** Packages search and api: indexing a document *)

(** The JSON encoding of a [Document], which fails on a score that JSON
    cannot express. *)
Class DocCodec `{GoTypes} := Marshal_doc : Document → error + string.

Module indexing.
Section indexing.
Context `{GoTypes} `{!DocCodec}.

(** [esapi.IndexRequest], and what [req.Do] can come back with. *)
Record IndexRequest := {
  Index_ : string;
  DocumentID : string;
  Body_ : string;
  Refresh : string;
}.

Inductive Reply :=
| DoFailed (err : error)
| DoResponse (IsError : bool) (String_ : string).

(** The backend as indexing sees it: its answer to each request, and the
    requests sent so far. *)
Record Backend := {
  reply : IndexRequest → Reply;
  calls : list IndexRequest;
}.

(** [Service.IndexDocument]; [None] is the nil error. *)
Definition IndexDocument (doc : Document) (b : Backend) : option error * Backend :=
  match Marshal_doc doc with
  | inl err => (Some err, b)
  | inr data =>
    let req := {| Index_ := "webpages"; DocumentID := ID doc;
                  Body_ := data; Refresh := "true" |} in
    let b' := {| reply := reply b; calls := calls b ++ [req] |} in
    match reply b req with
    | DoFailed err => (Some err, b')
    | DoResponse IsError String_ =>
      if IsError then (Some ("error indexing document: " +:+ String_), b')
      else (None, b')
    end
  end.

Inductive Body := H_error (msg : string) | H_status (msg : string).

Record Response := { status : Z; body : Body }.

(** [Handler.Index]; [bound] is what [c.ShouldBindJSON(&doc)] yields for
    the body of the request. *)
Definition Index (bound : error + Document) (b : Backend) : Response * Backend :=
  match bound with
  | inl _ =>
    ({| status := api.StatusBadRequest; body := H_error "invalid request body" |}, b)
  | inr doc =>
    let doc := {| ID := ID doc;
                  Title := html.EscapeString (Title doc);
                  Content := html.EscapeString (Content doc);
                  URL := URL doc; Score := Score doc;
                  Timestamp := Timestamp doc |} in
    match IndexDocument doc b with
    | (Some _, b') =>
      ({| status := api.StatusInternalServerError;
          body := H_error "indexing failed" |}, b')
    | (None, b') =>
      ({| status := api.StatusOK; body := H_status "indexed" |}, b')
    end
  end.

End indexing.
End indexing.

(** ** Package crawler: fetching and cleaning a page *)

Module crawler.
Section crawler.
Context `{GoTypes}.

Record WebPage := {
  URL_ : string;
  Title_ : string;
  Content_ : string;
  Description : string;
  Keywords : list string;
  CrawlTime : Time;
}.

Record Cleaner := { bannedDomains : list string }.

Definition NewCleaner : Cleaner :=
  {| bannedDomains := ["ads.com"; "tracker.com"] |}.

(** What the parsed document yields for the three selections the cleaner
    makes, once scripts, styles and comments are removed: the text of the
    title elements, the content attribute of the description, if there is
    one, and the text of the body. *)
Record Selections := {
  title_text : string;
  meta_description : option string;
  body_text : string;
}.

(** What fetching the URL comes back with: an error of the HTTP client, or
    a body that the HTML parser rejects or accepts. *)
Inductive Fetched :=
| GetFailed (err : error)
| Got (parsed : error + Selections).

(** [Cleaner.FetchAndClean]; the pair is the page pointer, [None] for nil,
    and the error, [None] for nil.  [now] is the reading of the clock. *)
Definition FetchAndClean (c : Cleaner) (url : string) (fetched : Fetched)
    (now : Time) : option WebPage * option error :=
  match fetched with
  | GetFailed err => (None, Some err)
  | Got (inl err) => (None, Some err)
  | Got (inr doc) =>
    let title := strings.TrimSpace (title_text doc) in
    let description := default "" (meta_description doc) in
    let content := strings.TrimSpace (body_text doc) in
    let content := strings.Join (strings.Fields content) " " in
    if str_len content <? 50 then (None, None)
    else (Some {| URL_ := url; Title_ := title; Content_ := content;
                  Description := description; Keywords := [];
                  CrawlTime := now |}, None)
  end.

End crawler.
End crawler.

(** ** Further vocabulary *)

(** The bytes that open or close markup or an attribute value. *)
Definition markup_byte (c : ascii) : bool :=
  is_byte 60 c || is_byte 62 c || is_byte 34 c || is_byte 39 c.

(** A word: a non-empty run of bytes none of which is ASCII white
    space. *)
Definition is_word (f : string) : Prop :=
  f ≠ "" ∧ all_bytes (λ c, negb (unicode.asciiSpace c)) f = true.

(** What [Fields] keeps of text whose bytes all satisfy [P]: words whose
    bytes all satisfy [P]; and the state of its scan. *)
Definition field_ok (P : ascii → bool) (f : string) : Prop :=
  is_word f ∧ all_bytes P f = true.
Definition cur_ok (P : ascii → bool) (cur : string) : Prop :=
  all_bytes (λ c, negb (unicode.asciiSpace c)) cur = true ∧ all_bytes P cur = true.

(** ** Further sample inputs *)

Module more.

#[local] Existing Instance sample.Types.
#[local] Existing Instance sample.Parser.
#[local] Existing Instance sample.Codec.

(** A stand-in for the JSON encoding of a document: identifier, title and
    content on three lines; a negative score stands for one that JSON
    cannot express. *)
#[local] Instance DocCodec : DocCodec := fun doc =>
  if Score doc <? 0 then inl "json: unsupported value"
  else inr (ID doc +:+ String "010" (Title doc +:+ String "010" (Content doc))).

Definition boldDoc : Document :=
  {| ID := "p<1>"; Title := "<b>Go</b>"; Content := "fast & small";
     URL := "https://go.dev/?a=1&b=2"; Score := 1; Timestamp := 0 |}.

Definition nanDoc : Document :=
  {| ID := "n"; Title := "t"; Content := "c"; URL := "u";
     Score := -1; Timestamp := 0 |}.

(** An indexing backend that accepts every request. *)
Definition backend : indexing.Backend :=
  {| indexing.reply := fun _ => indexing.DoResponse false "[201 Created]";
     indexing.calls := [] |}.

(** A world whose cache does not answer. *)
Definition offlineWorld : runtime.World :=
  {| runtime.rdb := {| redis.reachable := false; redis.entries := ∅ |};
     runtime.es_reply := fun _ => sample.okReply;
     runtime.es_calls := [];
     runtime.heap := ∅;
     runtime.goroutines := [] |}.

(** A world whose backend answers with an empty JSON object. *)
Definition emptyBodyWorld : runtime.World :=
  sample.world (es.Response false "[200 OK]" (inr [])).

Definition blankRequest : api.Context_ := sample.request "   " "8.8.8.8".
Definition otherRequest : api.Context_ := sample.request "go" "203.0.113.9".

(** The text of a page body as the parser returns it, with line breaks
    and indentation. *)
Definition bodyText : string :=
  String "010" ("  The Go programming language" +:+ String "010"
    ("    is an open source project" +:+ String "009"
      ("to make programmers more productive.  " +:+ String "010" ""))).

Definition selections : crawler.Selections :=
  {| crawler.title_text := " Go "; crawler.meta_description := None;
     crawler.body_text := bodyText |}.

Definition cleanedPage : crawler.WebPage :=
  {| crawler.URL_ := "https://ads.com/go";
     crawler.Title_ := "Go";
     crawler.Content_ :=
       "The Go programming language is an open source project to make programmers more productive.";
     crawler.Description := "";
     crawler.Keywords := [];
     crawler.CrawlTime := 0 |}.

End more.

(** ** Address text in full *)

(** [net.ParseIP] with both families: dotted-decimal IPv4 text, returned
    in the sixteen-byte form, and IPv6 text of up to eight groups of hex
    digits with at most one [::], optionally ending in dotted-decimal
    IPv4; text with a zone is refused. *)
Module inet.

Definition hexval (c : ascii) : option Z :=
  let n := Z.of_N (byte_val c) in
  if (48 <=? n) && (n <=? 57) then Some (n - 48)
  else if (97 <=? n) && (n <=? 102) then Some (n - 97 + 10)
  else if (65 <=? n) && (n <=? 70) then Some (n - 65 + 10)
  else None.

(** One group: the hex digits at the start of [s], their value and
    number, and what follows; a fifth digit is an error. *)
Fixpoint hexGroup (s : string) (acc : Z) (off : nat) : option (Z * nat * string) :=
  match s with
  | String c s' =>
    match hexval c with
    | Some v => if (3 <? off)%nat then None
                else hexGroup s' (acc * 16 + v) (S off)
    | None => Some (acc, off, s)
    end
  | EmptyString => Some (acc, off, s)
  end.

(** The loop over the groups: the bytes filled so far, the position of
    the [::] if one was seen, and the text left at the end. *)
Fixpoint groups (fuel : nat) (s : string) (ip : list Z) (ellipsis : option nat)
  : option (list Z * option nat * string) :=
  if (16 <=? length ip)%nat then Some (ip, ellipsis, s)
  else
    match fuel with
    | O => None
    | S fuel =>
      match hexGroup s 0 0%nat with
      | None => None
      | Some (acc, off, rest) =>
        if (off =? 0)%nat then None
        else
          match rest with
          | String "." _ =>
            if (negb (bool_decide (is_Some ellipsis)) && negb (length ip =? 12)%nat)
               || (16 <? length ip + 4)%nat
            then None
            else
              match sample.parseIPv4Fields s 0 0%nat [] with
              | Some fields => Some (ip ++ fields, ellipsis, "")
              | None => None
              end
          | _ =>
            let ip := ip ++ [acc `quot` 256; acc `rem` 256] in
            match rest with
            | EmptyString => Some (ip, ellipsis, "")
            | String c rest1 =>
              if negb (is_byte 58 c) then None
              else
                match rest1 with
                | EmptyString => None
                | String c1 rest2 =>
                  if is_byte 58 c1 then
                    match ellipsis with
                    | Some _ => None
                    | None =>
                      match rest2 with
                      | EmptyString => Some (ip, Some (length ip), "")
                      | _ => groups fuel rest2 ip (Some (length ip))
                      end
                    end
                  else groups fuel rest1 ip ellipsis
                end
            end
          end
      end
    end.

Definition parseIPv6 (s : string) : option (list Z) :=
  if strings.Contains s "%" then None
  else
    let '(s, ellipsis) :=
      match s with
      | String ":" (String ":" s') => (s', Some 0%nat)
      | _ => (s, None)
      end in
    match s, ellipsis with
    | EmptyString, Some _ => Some (replicate 16 0)
    | _, _ =>
      match groups 9 s [] ellipsis with
      | Some (ip, ellipsis, EmptyString) =>
        if (length ip <? 16)%nat then
          match ellipsis with
          | Some e => Some (take e ip ++ replicate (16 - length ip) 0 ++ drop e ip)
          | None => None
          end
        else
          match ellipsis with
          | Some _ => None
          | None => Some ip
          end
      | _ => None
      end
    end.

(** The first of [.] and [:] in the text decides the family. *)
Fixpoint family (s : string) : option bool :=
  match s with
  | EmptyString => None
  | String c s' =>
    if is_byte 46 c then Some false
    else if is_byte 58 c then Some true
    else family s'
  end.

Definition ParseIP (s : string) : option net.IP :=
  match family s with
  | Some false =>
    match sample.parseIPv4Fields s 0 0%nat [] with
    | Some fields => Some (net.v4InV6Prefix ++ (sample.to_byte <$> fields))
    | None => None
    end
  | Some true =>
    match parseIPv6 s with
    | Some ip => Some (sample.to_byte <$> ip)
    | None => None
    end
  | None => None
  end.

#[local] Instance Parser : net.Parser :=
  {| net.ParseIP := ParseIP; net.ParseIP_loopback := eq_refl |}.

(** [IP.IsPrivate]: the private ranges of IPv4 (10.0.0.0/8, 172.16.0.0/12
    and 192.168.0.0/16) and the unique local addresses of IPv6
    (fc00::/7). *)
Definition IsPrivate (ip : net.IP) : bool :=
  match net.To4 ip with
  | Some ip4 =>
    (net.at_ ip4 0 =? 10)
    || ((net.at_ ip4 0 =? 172) && (Z.land (net.at_ ip4 1) 240 =? 16))
    || ((net.at_ ip4 0 =? 192) && (net.at_ ip4 1 =? 168))
  | None =>
    (length ip =? 16)%nat && (Z.land (net.at_ ip 0) 254 =? 252)
  end.

(** A unique local address and a global one. *)
Definition uniqueLocal : net.IP :=
  [xfd; x00; x00; x00; x00; x00; x00; x00; x00; x00; x00; x00; x00; x00; x00; x01].
Definition globalV6 : net.IP :=
  [x20; x01; x0d; xb8; x00; x00; x00; x00; x00; x00; x00; x00; x00; x00; x00; x2a].

End inet.

(** ** Dynamic values of more than one kind *)

(** Dynamic values that are strings or numbers: a string encodes between
    quotes, a number in decimal.  Results are not encoded at all. *)
Module boxed.

#[local] Instance Types : GoTypes := {|
  float64 := Z;
  int64_of_float64 := id;
  int_of_float64 := id;
  Time := Z;
  zeroTime := 0;
  any := string + Z;
  any_of_string := inl;
  Marshal_any v :=
    match v with
    | inl text => Some (String "034" (text +:+ String "034" ""))
    | inr n => Some (strconv.Itoa n)
    end;
|}.

#[local] Instance Codec : Codec := {|
  Marshal _ := None;
  Unmarshal _ := None;
|}.

(** A world with an empty, reachable cache and a backend that is down. *)
Definition world : runtime.World :=
  {| runtime.rdb := {| redis.reachable := true; redis.entries := ∅ |};
     runtime.es_reply := fun _ => es.Failed "dial tcp: connection refused";
     runtime.es_calls := [];
     runtime.heap := ∅;
     runtime.goroutines := [] |}.

Definition answer : any := inr 42.

End boxed.

(** * Properties *)

(** ** The input validator *)

Lemma str_length_app (a b : string) :
  String.length (a +:+ b) = (String.length a + String.length b)%nat.
Proof. induction a as [|c a IH]; simpl; [reflexivity | by rewrite IH]. Qed.

Lemma str_take_length (n : nat) (s : string) :
  (n ≤ String.length s)%nat → String.length (str_take n s) = n.
Proof.
  revert s. induction n as [|n IH]; intros [|c s] Hn; simpl in *;
    try reflexivity; try lia.
  rewrite IH; [reflexivity | lia].
Qed.

Lemma escape_byte_length (c : ascii) :
  (1 ≤ String.length (html.escape_byte c) ≤ 5)%nat.
Proof.
  unfold html.escape_byte.
  repeat match goal with |- context [if ?b then _ else _] => destruct b end;
    simpl; lia.
Qed.

Lemma escape_byte_plain (c : ascii) :
  html.special c = false → html.escape_byte c = String c EmptyString.
Proof.
  unfold html.special, html.escape_byte. intros Hs.
  repeat match goal with |- context [if ?b then _ else _] => destruct b end;
    simpl in Hs; try discriminate; reflexivity.
Qed.

Lemma EscapeString_length (s : string) :
  (String.length s ≤ String.length (html.EscapeString s) ≤ 5 * String.length s)%nat.
Proof.
  induction s as [|c s IH]; simpl; [lia|].
  rewrite str_length_app. pose proof (escape_byte_length c). lia.
Qed.

Lemma EscapeString_plain (s : string) :
  all_bytes (λ c, negb (html.special c)) s = true → html.EscapeString s = s.
Proof.
  induction s as [|c s IH]; simpl; [reflexivity|].
  intros [Hc Hs]%andb_true_iff. apply negb_true_iff in Hc.
  rewrite (escape_byte_plain c Hc), (IH Hs). reflexivity.
Qed.

(** C3, as the code has it.  The cut to 100 bytes is made on the trimmed
    query and before escaping: when the trimmed form of the raw query is
    longer than 100 bytes, validation succeeds with the HTML-escaped form
    of its first 100 bytes.  That result is exactly 100 bytes long when
    none of those bytes is markup-significant, and between 100 and 500
    bytes long in general. *)
Theorem validateSearchInput_long (raw : string) :
  100 < str_len (strings.TrimSpace raw) →
  let cut := str_take 100 (strings.TrimSpace raw) in
  api.validateSearchInput raw = (html.EscapeString cut, true)
  ∧ 100 ≤ str_len (api.validateSearchInput raw).1 ≤ 500
  ∧ (all_bytes (λ c, negb (html.special c)) cut = true →
     str_len (api.validateSearchInput raw).1 = 100).
Proof.
  intros Hlen cut. unfold api.validateSearchInput.
  destruct (String.eqb_spec (strings.TrimSpace raw) "") as [He|_].
  { rewrite He in Hlen. unfold str_len in Hlen. simpl in Hlen. lia. }
  apply Z.ltb_lt in Hlen as Hlt. rewrite Hlt. fold cut. simpl.
  assert (Hcut : String.length cut = 100%nat).
  { apply str_take_length. unfold str_len in Hlen. lia. }
  split; [reflexivity|]. unfold str_len. split.
  - pose proof (EscapeString_length cut). lia.
  - intros Hplain. rewrite (EscapeString_plain cut Hplain). lia.
Qed.

Lemma validateSearchInput_long_witness :
  100 < str_len (strings.TrimSpace sample.longQuery)
  ∧ api.validateSearchInput sample.longQuery
    = (html.EscapeString (str_take 100 (strings.TrimSpace sample.longQuery)), true)
  ∧ 100 ≤ str_len (api.validateSearchInput sample.longQuery).1 ≤ 500
  ∧ (all_bytes (λ c, negb (html.special c))
               (str_take 100 (strings.TrimSpace sample.longQuery)) = true →
     str_len (api.validateSearchInput sample.longQuery).1 = 100).
Proof.
  split; [vm_compute; reflexivity|].
  apply (validateSearchInput_long sample.longQuery). vm_compute. reflexivity.
Defined.

(** Two raw queries longer than 100 bytes with a non-empty trimmed form
    whose normalized result is not 100 bytes long: one is short once
    trimmed, the other grows when its first 100 bytes are escaped. *)
Lemma validateSearchInput_not_100 :
  (100 < str_len sample.paddedQuery
   ∧ strings.TrimSpace sample.paddedQuery ≠ ""
   ∧ api.validateSearchInput sample.paddedQuery = ("a", true)
   ∧ str_len (api.validateSearchInput sample.paddedQuery).1 ≠ 100)
  ∧ (100 < str_len sample.markupQuery
     ∧ strings.TrimSpace sample.markupQuery ≠ ""
     ∧ (api.validateSearchInput sample.markupQuery).2 = true
     ∧ str_len (api.validateSearchInput sample.markupQuery).1 = 400
     ∧ str_len (api.validateSearchInput sample.markupQuery).1 ≠ 100).
Proof.
  split.
  - split; [vm_compute; reflexivity|].
    split; [vm_compute; discriminate|].
    split; [vm_compute; reflexivity|]. vm_compute. discriminate.
  - split; [vm_compute; reflexivity|].
    split; [vm_compute; discriminate|].
    split; [vm_compute; reflexivity|].
    split; [vm_compute; reflexivity|]. vm_compute. discriminate.
Qed.

(** ** The content moderator *)

Section filter_properties.
Context `{GoTypes}.
Implicit Types (s : filter.Service) (doc : Document) (l : list Document).

(** The loop of [Filter], started from any intermediate state. *)
Lemma Filter_loop s l acc n :
  foldl (filter.Filter_step s) (acc, n) l =
  (acc ++ filter (kept_by s) l,
   n + Z.of_nat (length (filter (dropped_by s) l))).
Proof.
  revert acc n. induction l as [|doc l IH]; intros acc n.
  - simpl. rewrite app_nil_r. f_equal. lia.
  - rewrite !filter_cons. cbn [foldl].
    destruct (decide (kept_by s doc)) as [Hk|Hk];
      destruct (decide (dropped_by s doc)) as [Hd|Hd];
      unfold kept_by, dropped_by in Hk, Hd.
    + congruence.
    + unfold filter.Filter_step at 2. rewrite Hk, IH, <- app_assoc. reflexivity.
    + unfold filter.Filter_step at 2. rewrite Hd, IH. f_equal. simpl. lia.
    + destruct (filter.isBlocked s doc); congruence.
Qed.

Lemma Filter_eq s l :
  filter.Filter s l =
  (filter (kept_by s) l, Z.of_nat (length (filter (dropped_by s) l))).
Proof. unfold filter.Filter. rewrite Filter_loop. reflexivity. Qed.

Lemma kept_dropped_length s l :
  (length (filter (kept_by s) l) + length (filter (dropped_by s) l))%nat
  = length l.
Proof.
  induction l as [|doc l IH]; [reflexivity|].
  rewrite !filter_cons.
  destruct (decide (kept_by s doc)) as [Hk|Hk];
    destruct (decide (dropped_by s doc)) as [Hd|Hd];
    unfold kept_by, dropped_by in Hk, Hd; simpl; try lia.
  - congruence.
  - destruct (filter.isBlocked s doc); congruence.
Qed.

Lemma filter_all {A} (P : A → Prop) `{!∀ x, Decision (P x)} (l : list A) :
  Forall P l → filter P l = l.
Proof.
  induction 1 as [|x l Hx _ IH]; [reflexivity|].
  rewrite filter_cons, decide_True by done. by rewrite IH.
Qed.

Lemma filter_none {A} (P : A → Prop) `{!∀ x, Decision (P x)} (l : list A) :
  Forall (λ x, ¬ P x) l → filter P l = [].
Proof.
  induction 1 as [|x l Hx _ IH]; [reflexivity|].
  by rewrite filter_cons, decide_False.
Qed.

Lemma kept_all_kept s l : Forall (kept_by s) (filter (kept_by s) l).
Proof. apply Forall_forall. intros doc [Hk _]%list_elem_of_filter. exact Hk. Qed.

Lemma Filter_lengths s l :
  Z.of_nat (length (filter.Filter s l).1) + (filter.Filter s l).2
  = Z.of_nat (length l).
Proof.
  rewrite Filter_eq. simpl. pose proof (kept_dropped_length s l). lia.
Qed.

(** C1.  For every document sequence, [Filter] returns the kept documents
    and the number removed such that their lengths add up to the length of
    the input, and the kept documents are a subsequence of the input: the
    survivors in their original relative order. *)
Theorem Filter_length_and_order s l :
  Z.of_nat (length (filter.Filter s l).1) + (filter.Filter s l).2
    = Z.of_nat (length l)
  ∧ (filter.Filter s l).1 `sublist_of` l.
Proof.
  split; [apply Filter_lengths|].
  rewrite Filter_eq. simpl. apply sublist_filter.
Qed.

(** C8.  [Filter] is idempotent: applied to the documents it kept, it
    returns the same sequence and removes nothing. *)
Theorem Filter_idempotent s l :
  filter.Filter s (filter.Filter s l).1 = ((filter.Filter s l).1, 0).
Proof.
  rewrite (Filter_eq s l). simpl. rewrite Filter_eq.
  pose proof (kept_all_kept s l) as Hk.
  rewrite (filter_all (kept_by s)) by exact Hk.
  rewrite (filter_none (dropped_by s)); [reflexivity|].
  eapply Forall_impl; [exact Hk|].
  unfold kept_by, dropped_by. intros doc ->. discriminate.
Qed.

End filter_properties.

Section empty_blocklist.
Context `{GoTypes}.
Implicit Types (s : filter.Service) (doc : Document) (l : list Document).

Lemma isBlocked_empty s doc :
  filter.blockedDomains s = ∅ → filter.isBlocked s doc = hasKeyword doc.
Proof.
  intros He. unfold filter.isBlocked, hasKeyword.
  rewrite He, map_to_list_empty.
  generalize (existsb (fun kw => strings.Contains (Title doc) kw
                                 || strings.Contains (Content doc) kw)
                      filter.sensitiveKeywords).
  intros [|]; reflexivity.
Qed.

(** C4, as the code has it.  With an empty blocked-domain map [Filter]
    still applies the fixed keyword list: it removes exactly the documents
    whose title or content contains a sensitive keyword, and it is a no-op
    (the sequence unchanged, nothing counted) on sequences without such a
    document.  It is a total function: it never fails. *)
Theorem Filter_empty_blocklist s l :
  filter.blockedDomains s = ∅ →
  filter.Filter s l =
    (filter (λ doc, hasKeyword doc = false) l,
     Z.of_nat (length (filter (λ doc, hasKeyword doc = true) l)))
  ∧ (Forall (λ doc, hasKeyword doc = false) l → filter.Filter s l = (l, 0)).
Proof.
  intros He.
  assert (Hk : filter (kept_by s) l = filter (λ doc, hasKeyword doc = false) l).
  { apply list_filter_iff. intros doc. unfold kept_by.
    rewrite (isBlocked_empty s doc He). reflexivity. }
  assert (Hd : filter (dropped_by s) l = filter (λ doc, hasKeyword doc = true) l).
  { apply list_filter_iff. intros doc. unfold dropped_by.
    rewrite (isBlocked_empty s doc He). reflexivity. }
  rewrite Filter_eq, Hk, Hd. split; [reflexivity|].
  intros Hall. rewrite (filter_all _ l Hall).
  rewrite (filter_none (λ doc, hasKeyword doc = true) l); [reflexivity|].
  eapply Forall_impl; [exact Hall|]. intros doc ->. discriminate.
Qed.

End empty_blocklist.

Lemma Filter_empty_blocklist_witness :
  filter.blockedDomains sample.emptyService = ∅
  ∧ filter.Filter sample.emptyService [sample.tourDoc; sample.keywordDoc]
    = (filter (λ doc, hasKeyword doc = false) [sample.tourDoc; sample.keywordDoc],
       Z.of_nat (length (filter (λ doc, hasKeyword doc = true)
                                [sample.tourDoc; sample.keywordDoc])))
  ∧ (Forall (λ doc, hasKeyword doc = false) [sample.tourDoc; sample.keywordDoc] →
     filter.Filter sample.emptyService [sample.tourDoc; sample.keywordDoc]
     = ([sample.tourDoc; sample.keywordDoc], 0)).
Proof.
  split; [reflexivity|].
  apply (Filter_empty_blocklist sample.emptyService
           [sample.tourDoc; sample.keywordDoc]).
  reflexivity.
Defined.

(** With no blocked domain at all, a document whose title is a sensitive
    keyword is removed: [Filter] is not a no-op there. *)
Lemma Filter_empty_blocklist_removes :
  filter.blockedDomains sample.emptyService = ∅
  ∧ filter.Filter sample.emptyService [sample.keywordDoc] = ([], 1)
  ∧ filter.Filter sample.emptyService [sample.keywordDoc]
    ≠ ([sample.keywordDoc], 0).
Proof.
  split; [reflexivity|]. split; [vm_compute; reflexivity|].
  vm_compute. discriminate.
Qed.

(** ** Pagination *)

Lemma digits_nonneg (s : string) (n un : Z) :
  0 ≤ n → strconv.digits s n = Some un → 0 ≤ un.
Proof.
  revert n. induction s as [|c s IH]; simpl; intros n Hn Hd.
  - congruence.
  - unfold strconv.digit in Hd. destruct (byte_in 48 57 c) eqn:Hc; [|discriminate].
    eapply IH; [|exact Hd].
    apply andb_true_iff in Hc as [Hlo _]. apply N.leb_le in Hlo. lia.
Qed.

Lemma numeral_nonneg (s : string) (neg : bool) (un : Z) :
  strconv.numeral s = Some (neg, un) → 0 ≤ un.
Proof.
  unfold strconv.numeral. intros Hn.
  destruct (match s with
            | String c s' => if is_byte 45 c then (true, s')
                             else if is_byte 43 c then (false, s') else (false, s)
            | EmptyString => (false, s) end) as [neg' body].
  destruct body as [|c body]; [discriminate|].
  destruct (strconv.digits (String c body) 0) as [un'|] eqn:Hd; [|discriminate].
  simpl in Hn. injection Hn as _ <-. eapply digits_nonneg; [|exact Hd]. lia.
Qed.

(** [Atoi] succeeds exactly on the decimal numerals that fit in 64 bits. *)
Lemma Atoi_requested (s : string) (n : Z) :
  strconv.Atoi s = (n, None)
  ↔ requested s = Some n ∧ strconv.minInt ≤ n ≤ strconv.maxInt.
Proof.
  unfold strconv.Atoi, requested.
  destruct (strconv.numeral s) as [[neg un]|] eqn:Hnum; simpl.
  2: { split; [discriminate | intros [? _]; discriminate]. }
  pose proof (numeral_nonneg s neg un Hnum) as Hun.
  unfold strconv.maxInt, strconv.minInt in *.
  destruct neg; simpl.
  - destruct (Z.ltb_spec (- - 2 ^ 63) un).
    + split; [discriminate|]. intros [[= <-] Hr]. lia.
    + split; [intros [= <-]; split; [reflexivity | lia]|].
      intros [[= <-] _]. reflexivity.
  - destruct (Z.ltb_spec (2 ^ 63 - 1) un).
    + split; [discriminate|]. intros [[= <-] Hr]. lia.
    + split; [intros [= <-]; split; [reflexivity | lia]|].
      intros [[= <-] _]. reflexivity.
Qed.

Lemma Atoi_error (s : string) :
  (strconv.Atoi s).2 ≠ None
  ↔ ∀ n, requested s = Some n → ¬ (strconv.minInt ≤ n ≤ strconv.maxInt).
Proof.
  split.
  - intros Herr n Hn Hr. apply Herr.
    rewrite (proj2 (Atoi_requested s n) (conj Hn Hr)). reflexivity.
  - intros Hno Hnone. destruct (strconv.Atoi s) as [n e] eqn:Ha.
    simpl in Hnone. subst e. apply Atoi_requested in Ha as [Hn Hr].
    exact (Hno n Hn Hr).
Qed.

Lemma Atoi_cases (s : string) :
  (∃ n, strconv.Atoi s = (n, None) ∧ requested s = Some n
        ∧ strconv.minInt ≤ n ≤ strconv.maxInt)
  ∨ (∃ n e, strconv.Atoi s = (n, Some e)
            ∧ ∀ m, requested s = Some m → ¬ (strconv.minInt ≤ m ≤ strconv.maxInt)).
Proof.
  destruct (strconv.Atoi s) as [n [e|]] eqn:Ha.
  - right. exists n, e. split; [reflexivity|].
    apply Atoi_error. rewrite Ha. discriminate.
  - left. exists n. split; [reflexivity|]. by apply Atoi_requested.
Qed.

(** C6, as the code has it.  For every pair of raw pagination strings,
    [validatePagination] returns a page of at least 1 and a size between 1
    and 50.  A page string that is not a decimal integer of the 64-bit
    range, or is not positive, yields 1; such a size string yields 10; a
    requested size above 50 within the 64-bit range yields 50, and
    otherwise the requested value is returned.  Page "abc" with size
    "1000" resolves to page 1, size 50.  The function is total. *)
Theorem validatePagination_total (pageStr sizeStr : string) :
  let page := (api.validatePagination pageStr sizeStr).1 in
  let size := (api.validatePagination pageStr sizeStr).2 in
  1 ≤ page ≤ strconv.maxInt
  ∧ 1 ≤ size ≤ 50
  ∧ ((∀ n, requested pageStr = Some n → n < 1 ∨ strconv.maxInt < n) → page = 1)
  ∧ ((∀ n, requested sizeStr = Some n → n < 1 ∨ strconv.maxInt < n) → size = 10)
  ∧ (∀ n, requested sizeStr = Some n → 50 < n ≤ strconv.maxInt → size = 50)
  ∧ (∀ n, requested pageStr = Some n → 1 ≤ n ≤ strconv.maxInt → page = n)
  ∧ (∀ n, requested sizeStr = Some n → 1 ≤ n ≤ 50 → size = n)
  ∧ api.validatePagination "abc" "1000" = (1, 50).
Proof.
  unfold api.validatePagination.
  assert (Hmax : strconv.maxInt = 9223372036854775807) by reflexivity.
  assert (Hmin : strconv.minInt = -9223372036854775808) by reflexivity.
  destruct (Atoi_cases pageStr) as [(p & -> & Hp & Hpr)|(p & ep & -> & Hp)];
    destruct (Atoi_cases sizeStr) as [(z & -> & Hz & Hzr)|(z & ez & -> & Hz)];
    cbn [fst snd bool_decide decide_rel];
    repeat match goal with
           | |- context [bool_decide ?P] =>
             first [rewrite (bool_decide_eq_false_2 P) by (intros HH; by apply HH)
                   |rewrite (bool_decide_eq_true_2 P) by discriminate]
           end;
    cbn [orb];
    repeat match goal with
           | |- context [?a <? 1] => destruct (Z.ltb_spec a 1)
           end;
    repeat match goal with
           | |- context [?a <? ?b] => destruct (Z.ltb_spec a b)
           end;
    cbn [fst snd];
    repeat split; try lia; try reflexivity;
    try (intros HH; specialize (HH _ ltac:(eassumption)); lia);
    try (intros n Hn Hr; first [specialize (Hp n Hn) | specialize (Hz n Hn)
                                | rewrite Hp in Hn | rewrite Hz in Hn];
         simplify_eq; lia).
Qed.

Lemma validatePagination_range_error :
  requested "99999999999999999999" = Some 99999999999999999999
  ∧ 50 < 99999999999999999999
  ∧ api.validatePagination "1" "99999999999999999999" = (1, 10)
  ∧ (api.validatePagination "1" "99999999999999999999").2 ≠ 50.
Proof.
  split; [vm_compute; reflexivity|]. split; [lia|].
  split; [vm_compute; reflexivity|]. vm_compute. discriminate.
Qed.

(** ** The geo classifier *)

Section geo.
Context `{net.Parser}.
Import net.

Lemma To4_length (ip ip4 : IP) : To4 ip = Some ip4 → length ip4 = 4%nat.
Proof.
  unfold To4. destruct (Nat.eqb_spec (length ip) 4) as [H4|_].
  - intros [= <-]. exact H4.
  - destruct (Nat.eqb_spec (length ip) 16) as [H16|_]; simpl; [|discriminate].
    destruct (_ && _ && _); [|discriminate].
    intros [= <-]. rewrite length_drop. lia.
Qed.

Lemma To4_mapped (a b c d : Byte.byte) :
  To4 (v4InV6Prefix ++ [a; b; c; d]) = Some [a; b; c; d].
Proof. reflexivity. Qed.

Lemma IsChinaMainland_parsed (ipStr : string) (ip : IP) :
  ParseIP ipStr = Some ip →
  ip.IsChinaMainland ipStr = IsLoopback ip || ip.isPrivateIP ip || in_table ip.
Proof.
  intros Hp. unfold ip.IsChinaMainland.
  destruct (String.eqb_spec ipStr "::1") as [->|_].
  - rewrite ParseIP_loopback in Hp. injection Hp as <-. reflexivity.
  - rewrite Hp. unfold in_table.
    destruct (IsLoopback ip || ip.isPrivateIP ip); [reflexivity|].
    destruct (To4 ip); [|reflexivity]. by destruct (_ && _).
Qed.

(** An address that has no four-byte form is the loopback address only
    when its bytes are those of ::1. *)
Lemma IsLoopback_no_To4 (ip : IP) :
  To4 ip = None →
  IsLoopback ip = bool_decide (octet <$> ip = octet <$> IPv6loopback).
Proof.
  intros H4. unfold IsLoopback. rewrite H4. unfold Equal.
  cbn [length IPv6loopback].
  destruct (Nat.eqb_spec (length ip) 16) as [_|H16]; [reflexivity|].
  destruct (Nat.eqb_spec (length ip) 4) as [Hlen|_].
  { unfold To4 in H4. apply Nat.eqb_eq in Hlen. by rewrite Hlen in H4. }
  cbn [andb]. symmetry. apply bool_decide_eq_false. intros Heq.
  apply (f_equal length) in Heq. rewrite !length_fmap in Heq. by apply H16.
Qed.

(** C7, as the code has it.  [IsChinaMainland] is a total function whose
    index expressions are always in range.  Every loopback address,
    127.x.x.x or ::1, and every IPv4 address of a private range, 10.x.x.x,
    172.16.x.x to 172.31.x.x and 192.168.x.x, in its four-byte or its
    IPv4-mapped form, is classified as restricted.  Text that does not
    parse is classified as other, and so is every address that is not
    recognized: an IPv4 address outside those ranges whose first byte is
    not between 1 and 100, and every address without a four-byte form
    other than ::1, the private addresses of IPv6 among them. *)
Theorem IsChinaMainland_classifies (ipStr : string) :
  (∀ a b c d,
      ParseIP ipStr = Some [a; b; c; d]
      ∨ ParseIP ipStr = Some (v4InV6Prefix ++ [a; b; c; d]) →
      octet a = 127 ∨ octet a = 10
      ∨ (octet a = 172 ∧ 16 ≤ octet b ≤ 31)
      ∨ (octet a = 192 ∧ octet b = 168) →
      ip.IsChinaMainland ipStr = true)
  ∧ (∀ ip, ipStr = "::1" ∨ ParseIP ipStr = Some ip →
           octet <$> ip = octet <$> IPv6loopback →
           ip.IsChinaMainland ipStr = true)
  ∧ (ParseIP ipStr = None → ip.IsChinaMainland ipStr = false)
  ∧ (∀ a b c d,
      ParseIP ipStr = Some [a; b; c; d]
      ∨ ParseIP ipStr = Some (v4InV6Prefix ++ [a; b; c; d]) →
      ¬ 1 ≤ octet a ≤ 100 → octet a ≠ 127 →
      ¬ (octet a = 172 ∧ 16 ≤ octet b ≤ 31) →
      ¬ (octet a = 192 ∧ octet b = 168) →
      ip.IsChinaMainland ipStr = false)
  ∧ (∀ ip, ParseIP ipStr = Some ip → To4 ip = None →
           octet <$> ip ≠ octet <$> IPv6loopback →
           ip.IsChinaMainland ipStr = false)
  ∧ (∀ ip ip4, To4 ip = Some ip4 → is_Some (ip4 !! 0%nat) ∧ is_Some (ip4 !! 1%nat)).
Proof.
  assert (Hv4 : ∀ a b c d,
             ParseIP ipStr = Some [a; b; c; d]
             ∨ ParseIP ipStr = Some (v4InV6Prefix ++ [a; b; c; d]) →
             ip.IsChinaMainland ipStr
             = (octet a =? 127)
               || ((octet a =? 10)
                   || (octet a =? 172) && (16 <=? octet b) && (octet b <=? 31)
                   || (octet a =? 192) && (octet b =? 168))
               || (1 <=? octet a) && (octet a <=? 100)).
  { intros a b c d Hp.
    assert (∃ ip, ParseIP ipStr = Some ip ∧ To4 ip = Some [a; b; c; d])
      as (ip & Hip & H4).
    { destruct Hp as [Hp|Hp]; eexists; (split; [exact Hp | reflexivity]). }
    rewrite (IsChinaMainland_parsed _ _ Hip).
    unfold IsLoopback, ip.isPrivateIP, in_table. rewrite H4. reflexivity. }
  split; [|split; [|split; [|split; [|split]]]].
  - intros a b c d Hp Hr. rewrite (Hv4 a b c d Hp).
    rewrite !orb_true_iff, !andb_true_iff, !Z.eqb_eq, !Z.leb_le. lia.
  - intros ip [->|Hp] Hlo; [reflexivity|].
    rewrite (IsChinaMainland_parsed _ _ Hp).
    assert (H4 : To4 ip = None).
    { unfold To4. pose proof (f_equal length Hlo) as Hlen.
      rewrite !length_fmap in Hlen. cbn [length IPv6loopback] in Hlen.
      rewrite Hlen. cbn [Nat.eqb andb].
      assert (Hlk : octet <$> ip !! 10%nat = Some 0).
      { pose proof (list_lookup_fmap octet ip 10) as Hl.
        rewrite Hlo in Hl. symmetry. exact Hl. }
      rewrite Hlk. rewrite (bool_decide_eq_false_2 (Some 0 = Some 255)) by discriminate.
      by rewrite andb_false_r. }
    rewrite (IsLoopback_no_To4 _ H4). by rewrite bool_decide_eq_true_2.
  - intros Hp. unfold ip.IsChinaMainland.
    destruct (String.eqb_spec ipStr "::1") as [->|_].
    + rewrite ParseIP_loopback in Hp. discriminate.
    + by rewrite Hp.
  - intros a b c d Hp Ht Hl H172 H192. rewrite (Hv4 a b c d Hp).
    apply not_true_is_false.
    rewrite !orb_true_iff, !andb_true_iff, !Z.eqb_eq, !Z.leb_le. lia.
  - intros ip Hp H4 Hne. rewrite (IsChinaMainland_parsed _ _ Hp).
    rewrite (IsLoopback_no_To4 _ H4). unfold ip.isPrivateIP, in_table.
    rewrite H4. by rewrite bool_decide_eq_false_2.
  - intros ip ip4 H4%To4_length.
    split; apply lookup_lt_is_Some; lia.
Qed.

End geo.

Section geo_examples.
#[local] Existing Instance sample.Parser.

Example IsChinaMainland_samples :
  ip.IsChinaMainland "127.0.0.1" = true
  ∧ ip.IsChinaMainland "::1" = true
  ∧ ip.IsChinaMainland "192.168.1.20" = true
  ∧ ip.IsChinaMainland "172.32.0.1" = false
  ∧ ip.IsChinaMainland "8.8.8.8" = true
  ∧ ip.IsChinaMainland "203.0.113.9" = false
  ∧ ip.IsChinaMainland "not an address" = false.
Proof. vm_compute. repeat split. Qed.

End geo_examples.

Section geo_full.
#[local] Existing Instance inet.Parser.

(** The text fd00::1 parses to a unique local address, which is private,
    and is classified as other. *)
Lemma IsChinaMainland_unique_local :
  net.ParseIP "fd00::1" = Some inet.uniqueLocal
  ∧ inet.IsPrivate inet.uniqueLocal = true
  ∧ ip.IsChinaMainland "fd00::1" = false
  ∧ ip.IsChinaMainland "fd00::1" ≠ true.
Proof.
  split; [vm_compute; reflexivity|]. split; [vm_compute; reflexivity|].
  split; [vm_compute; reflexivity|]. vm_compute. discriminate.
Qed.

Lemma IsChinaMainland_classifies_witness :
  (net.ParseIP "192.168.1.20"
   = Some (net.v4InV6Prefix ++ [Byte.xc0; Byte.xa8; Byte.x01; Byte.x14])
   ∧ ip.IsChinaMainland "192.168.1.20" = true)
  ∧ (net.ParseIP "2001:db8::2a" = Some inet.globalV6
     ∧ ip.IsChinaMainland "2001:db8::2a" = false).
Proof.
  split.
  - split; [vm_compute; reflexivity|].
    apply (proj1 (IsChinaMainland_classifies "192.168.1.20")
                 Byte.xc0 Byte.xa8 Byte.x01 Byte.x14).
    + right. vm_compute. reflexivity.
    + right. right. right. split; vm_compute; reflexivity.
  - split; [vm_compute; reflexivity|].
    apply (proj1 (proj2 (proj2 (proj2 (proj2
             (IsChinaMainland_classifies "2001:db8::2a"))))) inet.globalV6).
    + vm_compute. reflexivity.
    + vm_compute. reflexivity.
    + vm_compute. discriminate.
Defined.

End geo_full.

(** ** The cache-aside paths *)

Section cache_aside.
Context `{GoTypes} `{!Codec}.
Import runtime.

Lemma Search_hit w query page size r :
  cached w (search.cacheKey query page size) = Some r →
  search.Search query page size w = new r w.
Proof.
  unfold cached, search.Search, bind, redis_Get. intros Hc.
  destruct (redis.Get (rdb w) (search.cacheKey query page size)) as [val [e|]];
    [discriminate|].
  by rewrite Hc.
Qed.

Lemma Search_miss w query page size :
  cached w (search.cacheKey query page size) = None →
  search.Search query page size w =
  (res <- es_Search (request_of query page size) ;;
   match res with
   | es.Failed err => fail err
   | es.Response IsError String_ Decode =>
     if IsError then fail ("search request failed: " +:+ String_)
     else match Decode with
          | inl err => fail err
          | inr r =>
            match search.parseResponse r with
            | None => panic
            | Some (total, took, documents) =>
              result <- new {| Total := total; Hits := documents; Took := took;
                               Suggestions := search.getSuggestions query |} ;;
              go (cacheResult (search.cacheKey query page size) result) ;;;
              ret result
            end
          end
   end) w.
Proof.
  unfold cached, search.Search, bind at 1, redis_Get. intros Hc.
  destruct (redis.Get (rdb w) (search.cacheKey query page size)) as [val [e|]];
    [reflexivity|].
  by rewrite Hc.
Qed.

Lemma Search_backend_error w query page size e :
  cached w (search.cacheKey query page size) = None →
  backend_error (es_reply w (request_of query page size)) = Some e →
  search.Search query page size w =
  (Err e, set_es_calls (es_calls w ++ [request_of query page size]) w).
Proof.
  intros Hc He. rewrite (Search_miss _ _ _ _ Hc).
  unfold bind, es_Search, fail.
  destruct (es_reply w (request_of query page size)) as [err|[|] text [err|r]];
    simpl in He; by simplify_eq.
Qed.

Lemma Search_fetched w query page size text r total took documents :
  cached w (search.cacheKey query page size) = None →
  es_reply w (request_of query page size) = es.Response false text (inr r) →
  search.parseResponse r = Some (total, took, documents) →
  let p := fresh (dom (heap w)) in
  let result := {| Total := total; Hits := documents; Took := took;
                   Suggestions := search.getSuggestions query |} in
  search.Search query page size w =
  (Ok p,
   {| rdb := rdb w;
      es_reply := es_reply w;
      es_calls := es_calls w ++ [request_of query page size];
      heap := <[p := result]> (heap w);
      goroutines :=
        goroutines w ++ [cacheResult (search.cacheKey query page size) p] |}).
Proof.
  intros Hc Hr Hp. rewrite (Search_miss _ _ _ _ Hc).
  unfold bind, es_Search. rewrite Hr, Hp. reflexivity.
Qed.

(** Whatever [Search] returns successfully points to a result. *)
Lemma Search_Ok_allocated w query page size p w1 :
  search.Search query page size w = (Ok p, w1) → is_Some (heap w1 !! p).
Proof.
  destruct (cached w (search.cacheKey query page size)) as [r|] eqn:Hc.
  - rewrite (Search_hit _ _ _ _ _ Hc). unfold new. intros [= <- <-].
    simpl. rewrite lookup_insert_eq. by eexists.
  - rewrite (Search_miss _ _ _ _ Hc). unfold bind, es_Search, fail, panic.
    destruct (es_reply w _) as [err|[|] text [err|r]]; try discriminate.
    destruct (search.parseResponse r) as [[[total took] documents]|];
      [|discriminate].
    unfold new, go, ret. simpl. intros [= <- <-].
    simpl. rewrite lookup_insert_eq. by eexists.
Qed.

(** C5.  When the cache read misses and the fetch function returns an
    error, [GetOrSet] returns that error and leaves the world as the fetch
    function left it: it writes nothing to the cache and starts no
    write-back.  Likewise [Search], when its cache read misses and the
    backend query fails, returns the error and changes neither the cache,
    nor the objects in memory, nor the pending write-backs. *)
Theorem cache_miss_error_no_write :
  (∀ key ttl (fetch : M any) w e w',
      (redis.Get (rdb w) key).2 ≠ None →
      fetch w = (Err e, w') →
      cache.GetOrSet key ttl fetch w = (Err e, w'))
  ∧ (∀ w query page size e,
        cached w (search.cacheKey query page size) = None →
        backend_error (es_reply w (request_of query page size)) = Some e →
        ∃ w', search.Search query page size w = (Err e, w')
              ∧ rdb w' = rdb w
              ∧ goroutines w' = goroutines w
              ∧ heap w' = heap w).
Proof.
  split.
  - intros key ttl fetch w e w' Hmiss Hf.
    unfold cache.GetOrSet, bind, redis_Get, try.
    destruct (redis.Get (rdb w) key) as [val [err|]]; [|done].
    by rewrite Hf.
  - intros w query page size e Hc He. eexists.
    split; [exact (Search_backend_error _ _ _ _ _ Hc He)|]. done.
Qed.

(** The write-back started by a fetch, once it runs against a reachable
    cache, leaves the encoded result under the key. *)
Lemma schedule_write_back w key p r :
  goroutines w !! (length (goroutines w) - 1)%nat = Some (cacheResult key p) →
  heap w !! p = Some r →
  redis.reachable (rdb w) = true →
  sched.schedule (length (goroutines w) - 1) w =
  (Ok (),
   {| rdb := {| redis.reachable := true;
                redis.entries :=
                  <[key := (default "" (Marshal r), 5 * time.Minute)]>
                    (redis.entries (rdb w)) |};
      es_reply := es_reply w;
      es_calls := es_calls w;
      heap := heap w;
      goroutines := delete (length (goroutines w) - 1)%nat (goroutines w) |}).
Proof.
  intros Hg Hp Hr. unfold sched.schedule. rewrite Hg.
  unfold sched.run, bind, load, redis_Set. simpl. rewrite Hp.
  unfold set_rdb, redis.Set_. simpl. rewrite Hr. reflexivity.
Qed.

(** C2.  When the cache holds, under the key of (query, page, size), a
    value that decodes to a result, [Search] returns that result and does
    not call the backend.  In particular, after a miss has fetched a
    result and its write-back has run against a reachable cache, the same
    request is answered from the cache, without a backend call, with what
    the stored encoding decodes to. *)
Theorem Search_cache_hit :
  (∀ w query page size val r,
      redis.Get (rdb w) (search.cacheKey query page size) = (val, None) →
      Unmarshal val = Some r →
      ∃ p w', search.Search query page size w = (Ok p, w')
              ∧ heap w' !! p = Some r
              ∧ es_calls w' = es_calls w
              ∧ rdb w' = rdb w
              ∧ goroutines w' = goroutines w)
  ∧ (∀ w query page size p w1 r r',
        cached w (search.cacheKey query page size) = None →
        redis.reachable (rdb w) = true →
        search.Search query page size w = (Ok p, w1) →
        heap w1 !! p = Some r →
        Unmarshal (default "" (Marshal r)) = Some r' →
        ∃ w2 p' w3,
          sched.schedule (length (goroutines w1) - 1) w1 = (Ok (), w2)
          ∧ search.Search query page size w2 = (Ok p', w3)
          ∧ heap w3 !! p' = Some r'
          ∧ es_calls w3 = es_calls w1).
Proof.
  assert (Hhit : ∀ w query page size r,
             cached w (search.cacheKey query page size) = Some r →
             ∃ p w', search.Search query page size w = (Ok p, w')
                     ∧ heap w' !! p = Some r
                     ∧ es_calls w' = es_calls w
                     ∧ rdb w' = rdb w
                     ∧ goroutines w' = goroutines w).
  { intros w query page size r Hc. rewrite (Search_hit _ _ _ _ _ Hc).
    unfold new. do 2 eexists. split; [reflexivity|].
    simpl. rewrite lookup_insert_eq. done. }
  split.
  - intros w query page size val r Hg Hu. apply Hhit.
    unfold cached. by rewrite Hg.
  - intros w query page size p w1 r r' Hc Hreach Hs Hp Hu.
    rewrite (Search_miss _ _ _ _ Hc) in Hs.
    unfold bind, es_Search, fail, panic in Hs.
    destruct (es_reply w _) as [err|[|] text [err|body]]; try discriminate.
    destruct (search.parseResponse body) as [[[total took] documents]|];
      [|discriminate].
    unfold new, go, ret in Hs. simpl in Hs. injection Hs as <- <-.
    simpl in Hp.
    eexists. 
    edestruct (Hhit) as (p' & w3 & Hs2 & Hp2 & Hcalls & _); last first.
    { exists p', w3. split; [|split; [exact Hs2|split; [exact Hp2|]]].
      - erewrite schedule_write_back; [reflexivity|..].
        + simpl. rewrite length_app. simpl.
          rewrite lookup_app_r by lia.
          replace (_ - _)%nat with 0%nat by lia. reflexivity.
        + exact Hp.
        + exact Hreach.
      - rewrite Hcalls. reflexivity. }
    unfold cached, redis.Get. simpl. rewrite lookup_insert_eq. exact Hu.
Qed.

End cache_aside.

(** ** The search handler *)

Section handler.
Context `{GoTypes} `{!Codec} `{!net.Parser}.
Import runtime.

(** The handler on a valid request whose search succeeded with [*p = r]. *)
Lemma handler_success h c w query page size p w1 r :
  api.validateSearchInput (api.Query c "q") = (query, true) →
  api.validatePagination (api.DefaultQuery c "page" "1")
                                (api.DefaultQuery c "size" "10") = (page, size) →
  search.Search query page size w = (Ok p, w1) →
  heap w1 !! p = Some r →
  api.Search h c w =
  if ip.IsChinaMainland (api.ClientIP c) then
    if 0 <? (filter.Filter (api.h_filter h) (Hits r)).2
    then (Ok (withheld r (filter.Filter (api.h_filter h) (Hits r)).1),
          set_heap (<[p := set_Hits (filter.Filter (api.h_filter h) (Hits r)).1 r]>
                      (heap w1)) w1)
    else (Ok (plain r), w1)
  else (Ok (plain r), w1).
Proof.
  intros Hv Hpg Hs Hp. unfold api.Search. rewrite Hv, Hpg. simpl.
  unfold bind at 1, try. rewrite Hs.
  destruct (ip.IsChinaMainland (api.ClientIP c)).
  - unfold bind at 1, load at 1. rewrite Hp.
    destruct (filter.Filter (api.h_filter h) (Hits r)) as [kept count]. simpl.
    destruct (0 <? count).
    + unfold bind, store, api.JSON, load, ret, bind. rewrite Hp. simpl.
      rewrite lookup_insert_eq. reflexivity.
    + unfold api.JSON, bind, load, ret. simpl. rewrite Hp. reflexivity.
  - unfold api.JSON, bind, load, ret. simpl. rewrite Hp. reflexivity.
Qed.

(** C9.  For a request from a restricted-region caller whose search
    succeeds and from whose hits the moderator removes at least one
    document, the response is a 200 carrying filtered = true, the fixed
    notice, which is the text below and so not empty, and the kept hits:
    as many as the backend returned minus the number removed. *)
Theorem Search_restricted_response h c w query page size p w1 r kept count :
  api.validateSearchInput (api.Query c "q") = (query, true) →
  api.validatePagination (api.DefaultQuery c "page" "1")
                                (api.DefaultQuery c "size" "10") = (page, size) →
  search.Search query page size w = (Ok p, w1) →
  heap w1 !! p = Some r →
  ip.IsChinaMainland (api.ClientIP c) = true →
  filter.Filter (api.h_filter h) (Hits r) = (kept, count) →
  0 < count →
  ∃ shown message w',
    api.Search h c w =
      (Ok {| api.status := 200;
             api.body := api.SearchJSON shown true message |}, w')
    ∧ message = "根据相关法律法规和政策，部分搜索结果未予显示。"
    ∧ message ≠ ""
    ∧ (0 < String.length message)%nat
    ∧ Hits shown = kept
    ∧ Z.of_nat (length (Hits shown)) = Z.of_nat (length (Hits r)) - count.
Proof.
  intros Hv Hpg Hs Hp Hcn Hf Hcount.
  rewrite (handler_success h c w query page size p w1 r Hv Hpg Hs Hp).
  rewrite Hcn, Hf. simpl. apply Z.ltb_lt in Hcount as ->.
  exists (set_Hits kept r). do 2 eexists. split; [reflexivity|].
  split; [reflexivity|]. split; [discriminate|].
  split; [apply Nat.ltb_lt; reflexivity|].
  split; [reflexivity|]. simpl.
  pose proof (Filter_lengths (api.h_filter h) (Hits r)) as Hlen.
  rewrite Hf in Hlen. simpl in Hlen. lia.
Qed.

(** C10.  In that response only the hits, the flag and the message differ
    from what the backend search produced: total, elapsed time and
    suggestions are those of the search result, so the total is not
    reduced by the number of withheld documents. *)
Theorem Search_restricted_frame h c w query page size p w1 r kept count :
  api.validateSearchInput (api.Query c "q") = (query, true) →
  api.validatePagination (api.DefaultQuery c "page" "1")
                                (api.DefaultQuery c "size" "10") = (page, size) →
  search.Search query page size w = (Ok p, w1) →
  heap w1 !! p = Some r →
  ip.IsChinaMainland (api.ClientIP c) = true →
  filter.Filter (api.h_filter h) (Hits r) = (kept, count) →
  0 < count →
  ∃ shown filtered message w',
    api.Search h c w =
      (Ok {| api.status := 200;
             api.body := api.SearchJSON shown filtered message |}, w')
    ∧ Total shown = Total r
    ∧ Took shown = Took r
    ∧ Suggestions shown = Suggestions r
    ∧ (Hits shown, filtered, message) = (kept, true, api.notice).
Proof.
  intros Hv Hpg Hs Hp Hcn Hf Hcount.
  rewrite (handler_success h c w query page size p w1 r Hv Hpg Hs Hp).
  rewrite Hcn, Hf. simpl. apply Z.ltb_lt in Hcount as ->.
  exists (set_Hits kept r), true, api.notice. eexists.
  split; [reflexivity|]. done.
Qed.

End handler.

Section shared_result.
Context `{GoTypes} `{!Codec} `{!net.Parser}.
Import runtime.

(** The handler withholds documents by assigning to the result object that
    the pending write-back of [Search] still points to: a write-back that
    runs only after the handler stores the kept hits, not the hits the
    backend returned. *)
Remark write_back_after_moderation h c w query page size p w1 r w' resp key :
  api.validateSearchInput (api.Query c "q") = (query, true) →
  api.validatePagination (api.DefaultQuery c "page" "1")
                         (api.DefaultQuery c "size" "10") = (page, size) →
  search.Search query page size w = (Ok p, w1) →
  heap w1 !! p = Some r →
  ip.IsChinaMainland (api.ClientIP c) = true →
  0 < (filter.Filter (api.h_filter h) (Hits r)).2 →
  api.Search h c w = (Ok resp, w') →
  goroutines w' !! (length (goroutines w') - 1)%nat = Some (cacheResult key p) →
  redis.reachable (rdb w') = true →
  ∃ w'', sched.schedule (length (goroutines w') - 1) w' = (Ok (), w'')
         ∧ redis.Get (rdb w'') key
           = (default "" (Marshal (set_Hits (filter.Filter (api.h_filter h) (Hits r)).1 r)),
              None).
Proof.
  intros Hv Hpg Hs Hp Hcn Hcount Hh Hg Hreach.
  rewrite (handler_success h c w query page size p w1 r Hv Hpg Hs Hp) in Hh.
  rewrite Hcn in Hh. apply Z.ltb_lt in Hcount. rewrite Hcount in Hh.
  injection Hh as _ <-.
  eexists. split.
  - eapply (schedule_write_back _ key p); [exact Hg| |exact Hreach].
    simpl. apply lookup_insert_eq.
  - unfold redis.Get. simpl. rewrite lookup_insert_eq. reflexivity.
Qed.

End shared_result.

(** ** The properties at the sample inputs *)

Section sample_runs.
#[local] Existing Instance sample.Types.
#[local] Existing Instance sample.Parser.
#[local] Existing Instance sample.Codec.
Import runtime.

Lemma cache_miss_error_no_write_witness :
  cache.GetOrSet "hot" (5 * time.Minute) (fail "fetch failed") sample.coldWorld
  = (Err "fetch failed", sample.coldWorld)
  ∧ ∃ w', search.Search "go" 1 10 (sample.world sample.downReply)
          = (Err "dial tcp: connection refused", w')
          ∧ rdb w' = rdb (sample.world sample.downReply)
          ∧ goroutines w' = goroutines (sample.world sample.downReply)
          ∧ heap w' = heap (sample.world sample.downReply).
Proof.
  split.
  - apply (proj1 cache_miss_error_no_write "hot" (5 * time.Minute)
                 (fail "fetch failed") sample.coldWorld).
    + vm_compute. discriminate.
    + reflexivity.
  - apply (proj2 cache_miss_error_no_write (sample.world sample.downReply)
                 "go" 1 10).
    + vm_compute. reflexivity.
    + vm_compute. reflexivity.
Defined.

Lemma Search_cache_hit_witness :
  (∃ p w', search.Search "go" 1 10 sample.warmWorld = (Ok p, w')
           ∧ heap w' !! p = Some sample.cachedResult
           ∧ es_calls w' = es_calls sample.warmWorld
           ∧ rdb w' = rdb sample.warmWorld
           ∧ goroutines w' = goroutines sample.warmWorld)
  ∧ (∃ w2 p' w3,
        sched.schedule (length (goroutines sample.fetchedWorld) - 1)
                       sample.fetchedWorld = (Ok (), w2)
        ∧ search.Search "go" 1 10 w2 = (Ok p', w3)
        ∧ heap w3 !! p' = Some sample.decodedResult
        ∧ es_calls w3 = es_calls sample.fetchedWorld).
Proof.
  split.
  - apply (proj1 Search_cache_hit sample.warmWorld "go" 1 10 "7 3").
    + vm_compute. reflexivity.
    + vm_compute. reflexivity.
  - apply (proj2 Search_cache_hit sample.coldWorld "go" 1 10 0%nat
                 sample.fetchedWorld sample.goResult).
    + vm_compute. reflexivity.
    + reflexivity.
    + vm_compute. reflexivity.
    + vm_compute. reflexivity.
    + vm_compute. reflexivity.
Defined.

Lemma Search_restricted_response_witness :
  ∃ shown message w',
    api.Search sample.handler sample.localRequest sample.coldWorld =
      (Ok {| api.status := 200;
             api.body := api.SearchJSON shown true message |}, w')
    ∧ message = "根据相关法律法规和政策，部分搜索结果未予显示。"
    ∧ message ≠ ""
    ∧ (0 < String.length message)%nat
    ∧ Hits shown = [sample.tourDoc]
    ∧ Z.of_nat (length (Hits shown))
      = Z.of_nat (length (Hits sample.goResult)) - 1.
Proof.
  apply (Search_restricted_response sample.handler sample.localRequest
           sample.coldWorld "go" 1 10 0%nat sample.fetchedWorld sample.goResult
           [sample.tourDoc] 1).
  - vm_compute. reflexivity.
  - vm_compute. reflexivity.
  - vm_compute. reflexivity.
  - vm_compute. reflexivity.
  - vm_compute. reflexivity.
  - vm_compute. reflexivity.
  - reflexivity.
Defined.

Lemma Search_restricted_frame_witness :
  ∃ shown filtered message w',
    api.Search sample.handler sample.localRequest sample.coldWorld =
      (Ok {| api.status := 200;
             api.body := api.SearchJSON shown filtered message |}, w')
    ∧ Total shown = Total sample.goResult
    ∧ Took shown = Took sample.goResult
    ∧ Suggestions shown = Suggestions sample.goResult
    ∧ (Hits shown, filtered, message) = ([sample.tourDoc], true, api.notice).
Proof.
  apply (Search_restricted_frame sample.handler sample.localRequest
           sample.coldWorld "go" 1 10 0%nat sample.fetchedWorld sample.goResult
           [sample.tourDoc] 1).
  - vm_compute. reflexivity.
  - vm_compute. reflexivity.
  - vm_compute. reflexivity.
  - vm_compute. reflexivity.
  - vm_compute. reflexivity.
  - vm_compute. reflexivity.
  - reflexivity.
Defined.

(** The cases of the repository's own tests of the validators. *)
Example TestValidateSearchInput :
  api.validateSearchInput "hello" = ("hello", true)
  ∧ api.validateSearchInput "  hello  " = ("hello", true)
  ∧ api.validateSearchInput "   " = ("", false)
  ∧ api.validateSearchInput "<script>alert(1)</script>"
    = ("&lt;script&gt;alert(1)&lt;/script&gt;", true)
  ∧ str_len (api.validateSearchInput (str_repeat "000" 150)).1 = 100
  ∧ (api.validateSearchInput (str_repeat "000" 150)).2 = true.
Proof. vm_compute. repeat split. Qed.

Example TestValidatePagination :
  api.validatePagination "" "" = (1, 10)
  ∧ api.validatePagination "2" "20" = (2, 20)
  ∧ api.validatePagination "abc" "10" = (1, 10)
  ∧ api.validatePagination "-1" "10" = (1, 10)
  ∧ api.validatePagination "1" "100" = (1, 50).
Proof. vm_compute. repeat split. Qed.

(** White space is trimmed rune by rune: an ideographic space (U+3000,
    bytes E3 80 80) goes, a lone byte E3 stays. *)
Example TrimSpace_unicode :
  strings.TrimSpace (String "227" (String "128" (String "128" " go "))) = "go"
  ∧ strings.TrimSpace (String "227" " go") = String "227" " go".
Proof. vm_compute. split; reflexivity. Qed.

Example handler_run_restricted :
  (api.Search sample.handler sample.localRequest sample.coldWorld).1
  = Ok (withheld sample.goResult [sample.tourDoc]).
Proof. vm_compute. reflexivity. Qed.

(** The same request from an address outside the table is answered with
    all the hits the backend returned. *)
Example handler_run_other :
  (api.Search sample.handler (sample.request "go" "203.0.113.9")
              sample.coldWorld).1
  = Ok (plain sample.goResult).
Proof. vm_compute. reflexivity. Qed.

End sample_runs.

(** * Further properties of the code *)

(** ** The input validator *)

Lemma all_bytes_app (P : ascii → bool) (a b : string) :
  all_bytes P (a +:+ b) = all_bytes P a && all_bytes P b.
Proof.
  induction a as [|c a IH]; simpl; [reflexivity|].
  by rewrite IH, andb_assoc.
Qed.

Lemma escape_byte_no_markup (c : ascii) :
  all_bytes (λ b, negb (markup_byte b)) (html.escape_byte c) = true.
Proof.
  unfold html.escape_byte.
  destruct (is_byte 38 c) eqn:H38; [reflexivity|].
  destruct (is_byte 39 c) eqn:H39; [reflexivity|].
  destruct (is_byte 60 c) eqn:H60; [reflexivity|].
  destruct (is_byte 62 c) eqn:H62; [reflexivity|].
  destruct (is_byte 34 c) eqn:H34; [reflexivity|].
  simpl. unfold markup_byte. by rewrite H60, H62, H34, H39.
Qed.

Lemma EscapeString_no_markup (s : string) :
  all_bytes (λ b, negb (markup_byte b)) (html.EscapeString s) = true.
Proof.
  induction s as [|c s IH]; simpl; [reflexivity|].
  by rewrite all_bytes_app, escape_byte_no_markup, IH.
Qed.

Lemma str_take_length_le (n : nat) (s : string) :
  (String.length (str_take n s) ≤ n)%nat.
Proof.
  revert s. induction n as [|n IH]; intros [|c s]; simpl; try lia.
  specialize (IH s). lia.
Qed.

Lemma str_take_all (n : nat) (s : string) :
  (String.length s ≤ n)%nat → str_take n s = s.
Proof.
  revert s. induction n as [|n IH]; intros [|c s] Hn; simpl in *;
    try reflexivity; try lia.
  rewrite IH; [reflexivity | lia].
Qed.

(** The query [validateSearchInput] works on once it has trimmed. *)
Lemma validateSearchInput_eq (raw : string) :
  strings.TrimSpace raw ≠ "" →
  api.validateSearchInput raw
  = (html.EscapeString (str_take 100 (strings.TrimSpace raw)), true).
Proof.
  intros Hne. unfold api.validateSearchInput.
  destruct (String.eqb_spec (strings.TrimSpace raw) "") as [He|_]; [done|].
  unfold str_len.
  destruct (Z.ltb_spec 100 (Z.of_nat (String.length (strings.TrimSpace raw))));
    [reflexivity|].
  rewrite str_take_all by lia. reflexivity.
Qed.

(** X1.  [validateSearchInput] rejects a query exactly when nothing is
    left of it after trimming, and then returns the empty string; a query
    it accepts comes back non-empty and at most 500 bytes long, however
    long the raw query was. *)
Theorem validateSearchInput_accepts (raw : string) :
  ((api.validateSearchInput raw).2 = false ↔ strings.TrimSpace raw = "")
  ∧ ((api.validateSearchInput raw).2 = false → (api.validateSearchInput raw).1 = "")
  ∧ ((api.validateSearchInput raw).2 = true →
     1 ≤ str_len (api.validateSearchInput raw).1 ≤ 500).
Proof.
  destruct (String.eqb_spec (strings.TrimSpace raw) "") as [He|Hne].
  - unfold api.validateSearchInput. rewrite He. simpl.
    split; [done|]. split; [done|discriminate].
  - rewrite (validateSearchInput_eq raw Hne). cbn [fst snd].
    split; [split; [discriminate|done]|]. split; [discriminate|].
    intros _. unfold str_len.
    pose proof (EscapeString_length (str_take 100 (strings.TrimSpace raw))).
    pose proof (str_take_length_le 100 (strings.TrimSpace raw)).
    assert (1 ≤ String.length (str_take 100 (strings.TrimSpace raw)))%nat; [|lia].
    destruct (strings.TrimSpace raw); [done|]. simpl. lia.
Qed.

Lemma validateSearchInput_escaped (raw : string) :
  ∃ s, (api.validateSearchInput raw).1 = html.EscapeString s.
Proof.
  destruct (String.eqb_spec (strings.TrimSpace raw) "") as [He|Hne].
  - exists "". unfold api.validateSearchInput. rewrite He. reflexivity.
  - eexists. rewrite (validateSearchInput_eq raw Hne). reflexivity.
Qed.

(** X2.  Whatever the raw query, the normalized query contains none of
    the bytes <, >, double quote and single quote. *)
Theorem validateSearchInput_no_markup (raw : string) :
  all_bytes (λ b, negb (markup_byte b)) (api.validateSearchInput raw).1 = true.
Proof.
  destruct (validateSearchInput_escaped raw) as [s ->].
  apply EscapeString_no_markup.
Qed.

(** X3.  A query that, once trimmed, is non-empty, at most 100 bytes long
    and free of the five escaped bytes is accepted and returned as
    trimmed, byte for byte. *)
Theorem validateSearchInput_plain (raw : string) :
  strings.TrimSpace raw ≠ "" →
  str_len (strings.TrimSpace raw) ≤ 100 →
  all_bytes (λ c, negb (html.special c)) (strings.TrimSpace raw) = true →
  api.validateSearchInput raw = (strings.TrimSpace raw, true).
Proof.
  intros Hne Hlen Hplain. rewrite (validateSearchInput_eq raw Hne).
  unfold str_len in Hlen. rewrite str_take_all by lia.
  by rewrite EscapeString_plain.
Qed.

Lemma validateSearchInput_plain_witness :
  strings.TrimSpace "  rocq prover " ≠ ""
  ∧ api.validateSearchInput "  rocq prover " = (strings.TrimSpace "  rocq prover ", true).
Proof.
  split; [vm_compute; discriminate|].
  apply (validateSearchInput_plain "  rocq prover ").
  - vm_compute. discriminate.
  - vm_compute. discriminate.
  - vm_compute. reflexivity.
Defined.

(** ** The content moderator *)

Section filter_more.
Context `{GoTypes}.
Implicit Types (s : filter.Service) (doc : Document) (l : list Document).

(** X4.  [Filter] works document by document: the result for a
    concatenation is the concatenation of the kept documents and the sum of
    the counts, so moderating page by page or all at once gives the same. *)
Theorem Filter_app s l1 l2 :
  filter.Filter s (l1 ++ l2)
  = ((filter.Filter s l1).1 ++ (filter.Filter s l2).1,
     (filter.Filter s l1).2 + (filter.Filter s l2).2).
Proof.
  rewrite !Filter_eq. cbn [fst snd]. rewrite !filter_app, length_app.
  f_equal. lia.
Qed.

Lemma filter_eq_all {A} (P : A → Prop) `{!∀ x, Decision (P x)} (l : list A) :
  filter P l = l → Forall P l.
Proof.
  induction l as [|x l IH]; [constructor|].
  rewrite filter_cons. destruct (decide (P x)) as [Hx|Hx].
  - intros [= Hl]. constructor; [exact Hx | exact (IH Hl)].
  - intros Hl. pose proof (length_filter P l) as Hlen.
    rewrite Hl in Hlen. simpl in Hlen. lia.
Qed.

(** X5.  A document is kept exactly when it is in the input and not
    blocked.  The count lies between 0 and the length of the input, and it
    is 0 exactly when the kept list is the whole input, which is exactly
    when no document of the input is blocked. *)
Theorem Filter_kept_and_count s l :
  (∀ doc, doc ∈ (filter.Filter s l).1 ↔ doc ∈ l ∧ filter.isBlocked s doc = false)
  ∧ 0 ≤ (filter.Filter s l).2 ≤ Z.of_nat (length l)
  ∧ ((filter.Filter s l).2 = 0 ↔ (filter.Filter s l).1 = l)
  ∧ ((filter.Filter s l).2 = 0 ↔ Forall (λ doc, filter.isBlocked s doc = false) l).
Proof.
  pose proof (Filter_lengths s l) as Hlen.
  rewrite Filter_eq in *. cbn [fst snd] in *.
  split; [|split; [|split]].
  - intros doc. rewrite list_elem_of_filter. unfold kept_by. tauto.
  - lia.
  - split.
    + intros H0. apply filter_all. apply Forall_forall. intros doc Hin.
      destruct (filter.isBlocked s doc) eqn:Hb; [|done].
      assert (doc ∈ filter (dropped_by s) l) as Hd
        by (apply list_elem_of_filter; done).
      destruct (filter (dropped_by s) l); [by apply elem_of_nil in Hd|].
      simpl in H0. lia.
    + intros Hk. rewrite Hk in Hlen. lia.
  - split.
    + intros H0. apply Forall_forall. intros doc Hin.
      destruct (filter.isBlocked s doc) eqn:Hb; [|done].
      assert (doc ∈ filter (dropped_by s) l) as Hd
        by (apply list_elem_of_filter; done).
      destruct (filter (dropped_by s) l); [by apply elem_of_nil in Hd|].
      simpl in H0. lia.
    + intros Hall. rewrite (filter_none (dropped_by s)); [reflexivity|].
      eapply Forall_impl; [exact Hall|].
      unfold dropped_by. intros doc ->. discriminate.
Qed.

(** The domain half of [isBlocked]: some key of the map occurs in the URL
    or in the title. *)
Lemma domain_match_spec s doc :
  existsb (fun domain => strings.Contains (URL doc) domain
                         || strings.Contains (Title doc) domain)
          (map_to_list (filter.blockedDomains s)).*1 = true
  ↔ ∃ domain, is_Some (filter.blockedDomains s !! domain)
              ∧ (strings.Contains (URL doc) domain = true
                 ∨ strings.Contains (Title doc) domain = true).
Proof.
  rewrite existsb_exists. split.
  - intros (domain & Hin & Hc). exists domain.
    apply list_elem_of_In, list_elem_of_fmap in Hin as ([k v] & -> & Hkv).
    apply elem_of_map_to_list in Hkv. simpl in *.
    split; [by eexists|]. by apply orb_true_iff.
  - intros (domain & [v Hv] & Hc). exists domain. split.
    + apply list_elem_of_In, list_elem_of_fmap. exists (domain, v).
      split; [reflexivity|]. by apply elem_of_map_to_list.
    + by apply orb_true_iff.
Qed.

(** X6.  A document is blocked exactly when some key of the blocked-domain
    map occurs in its URL or its title, or a sensitive keyword occurs in
    its title or its content.  Only the keys of the map count: a domain
    stored with the value false blocks like one stored with true. *)
Theorem isBlocked_spec s doc :
  filter.isBlocked s doc = true
  ↔ (∃ domain, is_Some (filter.blockedDomains s !! domain)
               ∧ (strings.Contains (URL doc) domain = true
                  ∨ strings.Contains (Title doc) domain = true))
    ∨ hasKeyword doc = true.
Proof.
  rewrite <- domain_match_spec. unfold filter.isBlocked, hasKeyword.
  destruct (existsb _ (map_to_list _).*1); [by split; [left|]|].
  destruct (existsb _ filter.sensitiveKeywords).
  - split; [by right|done].
  - split; [done|]. by intros [|].
Qed.

Lemma sublist_filter_impl {A} (P Q : A → Prop)
    `{!∀ x, Decision (P x)} `{!∀ x, Decision (Q x)} (l : list A) :
  (∀ x, P x → Q x) → filter P l `sublist_of` filter Q l.
Proof.
  intros HPQ. induction l as [|x l IH]; [done|].
  rewrite !filter_cons.
  destruct (decide (P x)) as [HP|HP]; destruct (decide (Q x)) as [HQ|HQ].
  - by apply sublist_skip.
  - destruct (HQ (HPQ x HP)).
  - by apply sublist_cons.
  - exact IH.
Qed.

(** X7.  Blocking more domains never brings a document back: when every
    key of one service's map is a key of another's, whatever the second
    keeps is a subsequence of what the first keeps, and the second removes
    at least as many documents. *)
Theorem Filter_monotone s s' l :
  (∀ domain, is_Some (filter.blockedDomains s !! domain) →
             is_Some (filter.blockedDomains s' !! domain)) →
  (filter.Filter s' l).1 `sublist_of` (filter.Filter s l).1
  ∧ (filter.Filter s l).2 ≤ (filter.Filter s' l).2.
Proof.
  intros Hsub.
  assert (Hmono : ∀ doc, filter.isBlocked s doc = true →
                         filter.isBlocked s' doc = true).
  { intros doc. unfold filter.isBlocked.
    destruct (existsb _ (map_to_list (filter.blockedDomains s)).*1) eqn:Hd.
    - intros _. apply domain_match_spec in Hd as (domain & Hin & Hc).
      assert (Hd' : existsb (fun domain => strings.Contains (URL doc) domain
                                          || strings.Contains (Title doc) domain)
                      (map_to_list (filter.blockedDomains s')).*1 = true).
      { apply domain_match_spec. exists domain. split; [by apply Hsub|exact Hc]. }
      by rewrite Hd'.
    - intros Hk.
      destruct (existsb _ (map_to_list (filter.blockedDomains s')).*1);
        [reflexivity|exact Hk]. }
  assert (Hsl : filter (kept_by s') l `sublist_of` filter (kept_by s) l).
  { apply sublist_filter_impl. unfold kept_by. intros doc Hk.
    destruct (filter.isBlocked s doc) eqn:Hb; [|done].
    rewrite (Hmono doc Hb) in Hk. discriminate. }
  pose proof (Filter_lengths s l) as H1. pose proof (Filter_lengths s' l) as H2.
  rewrite !Filter_eq in *. cbn [fst snd] in *.
  split; [exact Hsl|]. apply sublist_length in Hsl. lia.
Qed.

(** X8.  Loading the default blacklist stores each of the five default
    domains with the value true, whatever the map held for it before, and
    leaves every other entry of the map as it was. *)
Theorem loadDefaultBlacklist_lookup s domain :
  filter.blockedDomains (filter.loadDefaultBlacklist s) !! domain
  = if bool_decide (domain ∈ filter.defaultDomains) then Some true
    else filter.blockedDomains s !! domain.
Proof.
  unfold filter.loadDefaultBlacklist, filter.defaultDomains. cbn [foldl filter.blockedDomains].
  case_bool_decide as Hin.
  - repeat (apply elem_of_cons in Hin as [->|Hin];
            [by rewrite ?lookup_insert_eq;
                repeat (rewrite lookup_insert; case_decide; try done)|]).
    by apply elem_of_nil in Hin.
  - rewrite !lookup_insert_ne; [reflexivity|..];
      intros <-; apply Hin; set_solver.
Qed.

End filter_more.

(** ** The geo classifier *)

Section geo_more.
Context `{net.Parser}.
Import net.

(** X9.  An IPv4 address a.b.c.d, in its four-byte or its IPv4-mapped
    form, is classified as restricted exactly when a is between 1 and 100,
    or a is 127, or it lies in 172.16.0.0/12 or in 192.168.0.0/16; the
    range 10.0.0.0/8 is part of the first case. *)
Theorem IsChinaMainland_ipv4 (ipStr : string) (a b c d : Byte.byte) :
  ParseIP ipStr = Some [a; b; c; d]
  ∨ ParseIP ipStr = Some (v4InV6Prefix ++ [a; b; c; d]) →
  ip.IsChinaMainland ipStr = true
  ↔ 1 ≤ octet a ≤ 100 ∨ octet a = 127
    ∨ (octet a = 172 ∧ 16 ≤ octet b ≤ 31)
    ∨ (octet a = 192 ∧ octet b = 168).
Proof.
  intros Hp.
  assert (∃ ip, ParseIP ipStr = Some ip ∧ To4 ip = Some [a; b; c; d])
    as (ip & Hip & H4).
  { destruct Hp as [Hp|Hp]; eexists; (split; [exact Hp | reflexivity]). }
  rewrite (IsChinaMainland_parsed _ _ Hip).
  unfold IsLoopback, ip.isPrivateIP, in_table. rewrite H4.
  unfold at_. cbn [lookup list_lookup fmap option_fmap option_map default].
  rewrite !orb_true_iff, !andb_true_iff, !Z.eqb_eq, !Z.leb_le.
  unfold id. lia.
Qed.

(** X10.  An IPv6 address that is not IPv4-mapped is classified as
    restricted exactly when it is the loopback address ::1: no other IPv6
    range, unique-local and link-local included, is treated as private. *)
Theorem IsChinaMainland_ipv6 (ipStr : string) (ip : IP) :
  ParseIP ipStr = Some ip →
  length ip = 16%nat →
  To4 ip = None →
  ip.IsChinaMainland ipStr = true ↔ octet <$> ip = octet <$> IPv6loopback.
Proof.
  intros Hp Hlen H4. rewrite (IsChinaMainland_parsed _ _ Hp).
  unfold IsLoopback, ip.isPrivateIP, in_table. rewrite H4.
  rewrite !orb_false_r. unfold Equal. rewrite Hlen. cbn [length Nat.eqb].
  unfold bytes_eq. apply bool_decide_eq_true.
Qed.

End geo_more.

(** ** The cache key *)

Lemma string_of_uint_no_colon (d : Decimal.uint) :
  all_bytes (λ c, negb (is_byte 58 c)) (NilEmpty.string_of_uint d) = true.
Proof. induction d; simpl; try reflexivity; exact IHd. Qed.

Lemma Itoa_no_colon (n : Z) :
  all_bytes (λ c, negb (is_byte 58 c)) (strconv.Itoa n) = true.
Proof.
  unfold strconv.Itoa, NilZero.string_of_int, NilZero.string_of_uint.
  destruct (Z.to_int n) as [d|d]; destruct d; try reflexivity;
    cbn [all_bytes]; rewrite ?andb_true_l;
    match goal with
    | |- all_bytes _ (NilEmpty.string_of_uint ?u) = true =>
      apply (string_of_uint_no_colon u)
    end.
Qed.

Lemma Itoa_inj (n m : Z) : strconv.Itoa n = strconv.Itoa m → n = m.
Proof.
  unfold strconv.Itoa. intros Heq.
  assert (Hnn : ∀ z, Z.to_int z ≠ Decimal.Pos Decimal.Nil
                     ∧ Z.to_int z ≠ Decimal.Neg Decimal.Nil).
  { intros [|p|p]; simpl; split; try discriminate;
      intros [= Hp]; by apply DecimalPos.Unsigned.to_uint_nonnil in Hp. }
  apply DecimalZ.to_int_inj.
  destruct (Hnn n) as [Hn1 Hn2], (Hnn m) as [Hm1 Hm2].
  pose proof (NilZero.isi _ Hn1 Hn2) as Hn.
  pose proof (NilZero.isi _ Hm1 Hm2) as Hm.
  rewrite Heq in Hn. congruence.
Qed.

Lemma str_app_nil_l (s : string) : "" +:+ s = s.
Proof. reflexivity. Qed.

Lemma str_app_cons (c : ascii) (a s : string) :
  String c a +:+ s = String c (a +:+ s).
Proof. reflexivity. Qed.

(** Text is cut in one way only at its last colon. *)
Lemma split_at_last_colon (a b d1 d2 : string) :
  all_bytes (λ c, negb (is_byte 58 c)) d1 = true →
  all_bytes (λ c, negb (is_byte 58 c)) d2 = true →
  a +:+ ":" +:+ d1 = b +:+ ":" +:+ d2 →
  a = b ∧ d1 = d2.
Proof.
  intros H1 H2. revert b. induction a as [|c a IH]; intros [|c' b] Heq;
    rewrite ?str_app_nil_l, ?str_app_cons, ?str_app_nil_l in Heq.
  - injection Heq as ->. done.
  - injection Heq as _ Hd. rewrite Hd, (all_bytes_app _ b) in H1.
    rewrite ?str_app_cons, ?str_app_nil_l in H1.
    cbn [all_bytes] in H1. by rewrite andb_false_r in H1.
  - injection Heq as _ Hd. rewrite <- Hd, (all_bytes_app _ a) in H2.
    rewrite ?str_app_cons, ?str_app_nil_l in H2.
    cbn [all_bytes] in H2. by rewrite andb_false_r in H2.
  - injection Heq as -> Heq. destruct (IH _ Heq) as [-> ->]. done.
Qed.

Lemma str_app_assoc (a b c : string) : (a +:+ b) +:+ c = a +:+ b +:+ c.
Proof.
  induction a as [|x a IH]; [reflexivity|].
  rewrite !str_app_cons, IH. reflexivity.
Qed.

Section cache_key.
Context `{GoTypes} `{!Codec}.

(** X11.  The cache key determines the request: two requests have the same
    key only when they have the same query, the same page and the same
    size, whatever colons and digits the query contains. *)
Theorem cacheKey_inj (query query' : string) (page page' size size' : Z) :
  search.cacheKey query page size = search.cacheKey query' page' size' →
  query = query' ∧ page = page' ∧ size = size'.
Proof.
  unfold search.cacheKey. intros Heq.
  change ("search:" +:+ ?x) with
    (String "s" (String "e" (String "a" (String "r" (String "c"
      (String "h" (String ":" x))))))) in Heq.
  injection Heq as Heq.
  rewrite <- (str_app_assoc query), <- (str_app_assoc query') in Heq.
  rewrite <- (str_app_assoc (query +:+ ":")),
          <- (str_app_assoc (query' +:+ ":")) in Heq.
  rewrite (str_app_assoc query), (str_app_assoc query') in Heq.
  apply split_at_last_colon in Heq as [Heq Hs]; [|apply Itoa_no_colon..].
  apply split_at_last_colon in Heq as [Hq Hp]; [|apply Itoa_no_colon..].
  split; [exact Hq|]. split; by apply Itoa_inj.
Qed.

End cache_key.

(** ** The query orchestrator *)

Section search_more.
Context `{GoTypes} `{!Codec}.
Import runtime.

(** [Search] sends the backend at most the request built from its
    arguments. *)
Lemma Search_es_calls w query page size :
  es_calls (search.Search query page size w).2 = es_calls w
  ∨ es_calls (search.Search query page size w).2
    = es_calls w ++ [request_of query page size].
Proof.
  destruct (cached w (search.cacheKey query page size)) as [r0|] eqn:Hc.
  - rewrite (Search_hit _ _ _ _ _ Hc). by left.
  - rewrite (Search_miss _ _ _ _ Hc). unfold bind, es_Search, fail, panic.
    destruct (es_reply w _) as [err|[|] text [err|body]]; cbn [snd];
      try by right.
    destruct (search.parseResponse body) as [[[total took] documents]|];
      by right.
Qed.

(** X12.  Whatever its outcome, [Search] itself never writes to the cache
    and never changes an object that existed before the call; it sends at
    most one request to the backend, the one built from its arguments, and
    starts at most one write-back, for the key of its arguments. *)
Theorem Search_frame w query page size :
  let w' := (search.Search query page size w).2 in
  rdb w' = rdb w
  ∧ (∀ p r, heap w !! p = Some r → heap w' !! p = Some r)
  ∧ (es_calls w' = es_calls w
     ∨ es_calls w' = es_calls w ++ [request_of query page size])
  ∧ (goroutines w' = goroutines w
     ∨ ∃ p, goroutines w'
            = goroutines w ++ [cacheResult (search.cacheKey query page size) p]).
Proof.
  assert (Hfresh : ∀ p r r', heap w !! p = Some r →
            <[fresh (dom (heap w)) := r']> (heap w) !! p = Some r).
  { intros p r r' Hp. rewrite lookup_insert_ne; [exact Hp|].
    intros <-. apply (is_fresh (dom (heap w))).
    apply elem_of_dom. by eexists. }
  destruct (cached w (search.cacheKey query page size)) as [r0|] eqn:Hc.
  - rewrite (Search_hit _ _ _ _ _ Hc). unfold new. cbn [snd].
    split; [done|]. split; [intros p r; apply Hfresh|]. split; by left.
  - rewrite (Search_miss _ _ _ _ Hc). unfold bind, es_Search, fail, panic.
    destruct (es_reply w _) as [err|[|] text [err|body]]; cbn [snd];
      try (split; [done|]; split; [done|]; split; [by right|by left]).
    destruct (search.parseResponse body) as [[[total took] documents]|];
      cbn [snd].
    + unfold new, go, ret. cbn [snd heap rdb es_calls goroutines set_es_calls
                                 set_heap set_goroutines].
      split; [done|]. split; [intros p r; apply Hfresh|].
      split; [by right|]. right. by eexists.
    + split; [done|]. split; [done|]. split; [by right|by left].
Qed.

(** X13.  When the backend answers without an error status and its body
    decodes, but the body has no "hits" or no "took" entry, or its total
    is a bare number instead of an object, [Search] panics: it returns
    neither a result nor an error, and it starts no write-back. *)
Theorem Search_malformed_body_panics w query page size text body :
  cached w (search.cacheKey query page size) = None →
  es_reply w (request_of query page size) = es.Response false text (inr body) →
  es.index body "hits" = None
  ∨ es.index body "took" = None
  ∨ (∃ hits x, es.index body "hits" = Some (es.JObj hits)
               ∧ es.index hits "total" = Some (es.JNum x)) →
  search.Search query page size w
  = (Panic, set_es_calls (es_calls w ++ [request_of query page size]) w).
Proof.
  intros Hc Hr Hbad. rewrite (Search_miss _ _ _ _ Hc).
  unfold bind, es_Search. rewrite Hr.
  assert (search.parseResponse body = None) as ->; [|reflexivity].
  unfold search.parseResponse.
  destruct Hbad as [Hh|[Ht|(hits & x & Hh & Htot)]].
  - by rewrite Hh.
  - rewrite Ht. simpl.
    destruct (es.as_map (es.index body "hits")) as [hits|]; [|done]. simpl.
    destruct (es.as_map (es.index hits "total")) as [total_|]; [|done]. simpl.
    by destruct (es.as_float64 (es.index total_ "value")).
  - rewrite Hh. simpl. by rewrite Htot.
Qed.

(** X14.  For a body that [Search] accepts, the documents are the hits of
    the response, one for one and in the same order, each with the
    identifier of its hit; the time stamp of every document is the zero
    time, since the response is never asked for one. *)
Theorem parseResponse_documents body total took documents :
  search.parseResponse body = Some (total, took, documents) →
  ∃ hits hitList,
    es.index body "hits" = Some (es.JObj hits)
    ∧ es.index hits "hits" = Some (es.JArr hitList)
    ∧ length documents = length hitList
    ∧ Forall2 (λ hit doc, ∃ h, hit = es.JObj h
                               ∧ es.index h "_id" = Some (es.JStr (ID doc)))
              hitList documents
    ∧ Forall (λ doc, Timestamp doc = zeroTime) documents.
Proof.
  unfold search.parseResponse. intros Hp.
  destruct (es.index body "hits") as [[| | | | |hits]|] eqn:Hh; try discriminate.
  simpl in Hp.
  destruct (es.as_map (es.index hits "total")) as [total_|]; [|discriminate].
  simpl in Hp.
  destruct (es.as_float64 (es.index total_ "value")) as [value|]; [|discriminate].
  simpl in Hp.
  destruct (es.as_float64 (es.index body "took")) as [took_|]; [|discriminate].
  simpl in Hp.
  destruct (es.index hits "hits") as [[| | | |hitList|]|] eqn:Hl; try discriminate.
  simpl in Hp.
  destruct (mapM search.parseHit hitList) as [docs|] eqn:Hm; [|discriminate].
  simpl in Hp. injection Hp as <- <- <-.
  apply mapM_Some in Hm.
  exists hits, hitList. split; [reflexivity|]. split; [exact Hl|].
  split; [symmetry; by eapply Forall2_length|].
  assert (Hhit : ∀ hit doc, search.parseHit hit = Some doc →
            (∃ h, hit = es.JObj h ∧ es.index h "_id" = Some (es.JStr (ID doc)))
            ∧ Timestamp doc = zeroTime).
  { intros hit doc. unfold search.parseHit.
    destruct hit as [| | | | |h]; try discriminate. simpl.
    destruct (es.as_map (es.index h "_source")) as [source|]; [|discriminate].
    simpl.
    destruct (es.index h "_id") as [[| | |id| |]|] eqn:Hid; try discriminate.
    simpl.
    destruct (es.as_string (es.index source "title")); [|discriminate]. simpl.
    destruct (es.as_string (es.index source "content")); [|discriminate]. simpl.
    destruct (es.as_string (es.index source "url")); [|discriminate]. simpl.
    destruct (es.as_float64 (es.index h "_score")); [|discriminate]. simpl.
    intros [= <-]. simpl. split; [eexists; split; [reflexivity|exact Hid]|reflexivity]. }
  split.
  - eapply Forall2_impl; [exact Hm|]. intros hit doc Hd. by apply Hhit.
  - clear Hl. induction Hm as [|hit doc ? ? Hd _ IH]; [constructor|].
    constructor; [|exact IH]. by apply Hhit in Hd as [_ ?].
Qed.

End search_more.

(** ** The write-backs *)

Section write_back_more.
Context `{GoTypes} `{!Codec}.
Import runtime.

(** A pending write-back of [Search], run to its end. *)
Lemma schedule_cacheResult w i key p r :
  goroutines w !! i = Some (cacheResult key p) →
  heap w !! p = Some r →
  sched.schedule i w
  = (Ok (),
     set_rdb (redis.Set_ (rdb w) key (default "" (Marshal r)) (5 * time.Minute))
             (set_goroutines (delete i (goroutines w)) w)).
Proof.
  intros Hg Hp. unfold sched.schedule. rewrite Hg.
  unfold sched.run, bind, load, redis_Set. cbn [heap set_goroutines].
  rewrite Hp. reflexivity.
Qed.

(** A pending write-back of [GetOrSet], run to its end. *)
Lemma schedule_cacheData w i key data ttl :
  goroutines w !! i = Some (cacheData key data ttl) →
  sched.schedule i w
  = (Ok (),
     set_rdb (redis.Set_ (rdb w) key (default "" (Marshal_any data)) ttl)
             (set_goroutines (delete i (goroutines w)) w)).
Proof.
  intros Hg. unfold sched.schedule. rewrite Hg. reflexivity.
Qed.

Lemma lookup_last_app {A} (l : list A) (x : A) :
  (l ++ [x]) !! (length (l ++ [x]) - 1)%nat = Some x.
Proof.
  rewrite length_app. simpl. rewrite lookup_app_r by lia.
  replace (_ - _)%nat with 0%nat by lia. reflexivity.
Qed.

(** X15.  After a miss that fetched a result, the write-back, run against
    a reachable cache, stores the encoding of the result under the key of
    the request with a time to live of five minutes, replacing whatever
    was there, an entry that did not decode included; no other key of the
    cache changes. *)
Theorem Search_write_back_entry w query page size text body total took documents :
  cached w (search.cacheKey query page size) = None →
  es_reply w (request_of query page size) = es.Response false text (inr body) →
  search.parseResponse body = Some (total, took, documents) →
  redis.reachable (rdb w) = true →
  ∃ p w1 w2,
    search.Search query page size w = (Ok p, w1)
    ∧ sched.schedule (length (goroutines w1) - 1) w1 = (Ok (), w2)
    ∧ redis.entries (rdb w2) !! search.cacheKey query page size
      = Some (default "" (Marshal {| Total := total; Hits := documents;
                                     Took := took;
                                     Suggestions := search.getSuggestions query |}),
              300000000000)
    ∧ (∀ key, key ≠ search.cacheKey query page size →
              redis.entries (rdb w2) !! key = redis.entries (rdb w) !! key)
    ∧ goroutines w2 = goroutines w.
Proof.
  intros Hc Hr Hp Hreach.
  pose proof (Search_fetched _ _ _ _ _ _ _ _ _ Hc Hr Hp) as Hs.
  cbv zeta in Hs. do 3 eexists. split; [exact Hs|].
  split.
  - eapply schedule_cacheResult; cbn [goroutines heap].
    + apply lookup_last_app.
    + apply lookup_insert_eq.
  - cbn [rdb set_rdb]. unfold redis.Set_. rewrite Hreach.
    cbn [redis.entries]. split; [by rewrite lookup_insert_eq|].
    split; [intros key Hne; by rewrite lookup_insert_ne|].
    cbn [goroutines set_rdb set_goroutines]. rewrite length_app. simpl.
    replace (_ + 1 - 1)%nat with (length (goroutines w)) by lia.
    rewrite delete_middle. apply app_nil_r.
Qed.

(** X16.  With an unreachable cache [Search] degrades to the backend: the
    read counts as a miss, the result is returned as usual, the write-back
    stores nothing, and the same request repeated afterwards is again a
    miss that goes to the backend. *)
Theorem Search_cache_unreachable w query page size text body total took documents :
  redis.reachable (rdb w) = false →
  es_reply w (request_of query page size) = es.Response false text (inr body) →
  search.parseResponse body = Some (total, took, documents) →
  ∃ p w1 w2,
    search.Search query page size w = (Ok p, w1)
    ∧ heap w1 !! p = Some {| Total := total; Hits := documents; Took := took;
                             Suggestions := search.getSuggestions query |}
    ∧ sched.schedule (length (goroutines w1) - 1) w1 = (Ok (), w2)
    ∧ rdb w2 = rdb w
    ∧ cached w2 (search.cacheKey query page size) = None
    ∧ es_calls (search.Search query page size w2).2
      = es_calls w ++ [request_of query page size; request_of query page size].
Proof.
  intros Hdown Hr Hp.
  assert (Hmiss : ∀ w', rdb w' = rdb w →
            cached w' (search.cacheKey query page size) = None).
  { intros w' Hw. unfold cached, redis.Get. by rewrite Hw, Hdown. }
  pose proof (Search_fetched _ _ _ _ _ _ _ _ _ (Hmiss w eq_refl) Hr Hp) as Hs.
  cbv zeta in Hs. do 3 eexists. split; [exact Hs|].
  split; [apply lookup_insert_eq|]. split.
  - eapply schedule_cacheResult; cbn [goroutines heap].
    + apply lookup_last_app.
    + apply lookup_insert_eq.
  - cbn [rdb set_rdb set_goroutines]. unfold redis.Set_. rewrite Hdown.
    split; [reflexivity|]. split; [by apply Hmiss|].
    erewrite Search_fetched; [|by apply Hmiss|exact Hr|exact Hp].
    cbn [snd es_calls set_rdb set_goroutines]. by rewrite <- app_assoc.
Qed.

(** X17.  On a hit [GetOrSet] returns the cached text itself, boxed: the
    fetch function is not run, whatever it is, and nothing changes. *)
Theorem GetOrSet_hit key ttl (fetch : M any) w val :
  redis.Get (rdb w) key = (val, None) →
  cache.GetOrSet key ttl fetch w = (Ok (any_of_string val), w).
Proof.
  intros Hg. unfold cache.GetOrSet, bind, redis_Get. by rewrite Hg.
Qed.

(** What the store keeps of an expiration: a positive whole number of
    seconds as it is, a positive one below a millisecond as one
    millisecond, and none for zero. *)
Lemma expiry_whole_seconds (ttl : Z) (previous : option Z) :
  0 < ttl → ttl `rem` time.Second = 0 → redis.expiry ttl previous = ttl.
Proof.
  intros Hpos Hrem. unfold redis.expiry, redis.usePrecise, redis.formatSec.
  unfold time.Second in *.
  rewrite Z.rem_mod_nonneg in Hrem by lia.
  rewrite Z.rem_mod_nonneg, Z.quot_div_nonneg by lia.
  pose proof (Z.div_mod ttl 1000000000 ltac:(lia)) as Hdm.
  assert (Hbig : 1000000000 ≤ ttl).
  { destruct (Z_lt_le_dec ttl 1000000000) as [Hlt|]; [|assumption].
    rewrite Z.mod_small in Hrem by lia. lia. }
  replace (0 <? ttl) with true by (symmetry; apply Z.ltb_lt; lia).
  replace (ttl <? 1000000000) with false by (symmetry; apply Z.ltb_ge; lia).
  rewrite Hrem. cbn [orb negb Z.eqb andb]. lia.
Qed.

Lemma expiry_below_millisecond (ttl : Z) (previous : option Z) :
  0 < ttl < time.Millisecond → redis.expiry ttl previous = time.Millisecond.
Proof.
  intros [Hpos Hlt]. unfold redis.expiry, redis.usePrecise, redis.formatMs.
  unfold time.Second, time.Millisecond in *.
  replace (0 <? ttl) with true by (symmetry; apply Z.ltb_lt; lia).
  replace (ttl <? 1000000000) with true by (symmetry; apply Z.ltb_lt; lia).
  replace (ttl <? 1000000) with true by (symmetry; apply Z.ltb_lt; lia).
  reflexivity.
Qed.

(** X18.  On a miss with a successful fetch [GetOrSet] returns the fetched
    value and starts one write-back; once that has run against a reachable
    cache, the entry holds the JSON encoding of the value with the time to
    live the client makes of the given one: the given one when it is a
    positive whole number of seconds, one millisecond when it is positive
    and shorter than that, none when it is zero.  The next call for the
    key, with any fetch function, returns that encoding as text, not the
    value that was fetched. *)
Theorem GetOrSet_miss_then_hit key ttl ttl' (fetch fetch' : M any) w data w1 :
  (redis.Get (rdb w) key).2 ≠ None →
  fetch w = (Ok data, w1) →
  redis.reachable (rdb w1) = true →
  ∃ w2 w3 kept,
    cache.GetOrSet key ttl fetch w = (Ok data, w2)
    ∧ goroutines w2 = goroutines w1 ++ [cacheData key data ttl]
    ∧ sched.schedule (length (goroutines w2) - 1) w2 = (Ok (), w3)
    ∧ redis.entries (rdb w3) !! key = Some (default "" (Marshal_any data), kept)
    ∧ kept = redis.expiry ttl (snd <$> redis.entries (rdb w1) !! key)
    ∧ (0 < ttl → ttl `rem` time.Second = 0 → kept = ttl)
    ∧ (0 < ttl < time.Millisecond → kept = time.Millisecond)
    ∧ (ttl = 0 → kept = 0)
    ∧ cache.GetOrSet key ttl' fetch' w3
      = (Ok (any_of_string (default "" (Marshal_any data))), w3).
Proof.
  intros Hmiss Hf Hreach. do 3 eexists.
  split.
  { unfold cache.GetOrSet, bind, redis_Get, try.
    destruct (redis.Get (rdb w) key) as [val [err|]]; [|done].
    rewrite Hf. reflexivity. }
  cbn [goroutines set_goroutines]. split; [reflexivity|]. split.
  { apply schedule_cacheData. apply lookup_last_app. }
  cbn [rdb set_rdb set_goroutines]. unfold redis.Set_. rewrite Hreach.
  cbn [redis.entries]. split; [by rewrite lookup_insert_eq|].
  split; [reflexivity|].
  split; [intros; by apply expiry_whole_seconds|].
  split; [intros; by apply expiry_below_millisecond|].
  split; [by intros ->|].
  unfold cache.GetOrSet, bind at 1, redis_Get, redis.Get.
  cbn [rdb set_rdb redis.reachable redis.entries].
  by rewrite lookup_insert_eq.
Qed.

End write_back_more.

(** ** Splitting into fields *)

Lemma all_bytes_rev_append (P : ascii → bool) (s acc : string) :
  all_bytes P (str_rev_append s acc) = all_bytes P s && all_bytes P acc.
Proof.
  revert acc. induction s as [|c s IH]; intros acc; simpl; [reflexivity|].
  rewrite IH. simpl. destruct (P c), (all_bytes P s); reflexivity.
Qed.

Lemma all_bytes_rev (P : ascii → bool) (s : string) :
  all_bytes P (str_rev s) = all_bytes P s.
Proof. unfold str_rev. rewrite all_bytes_rev_append. simpl. apply andb_true_r. Qed.

Lemma str_rev_append_nonempty (s acc : string) :
  acc ≠ "" → str_rev_append s acc ≠ "".
Proof.
  revert acc. induction s as [|c s IH]; intros acc Hacc; simpl; [exact Hacc|].
  apply IH. discriminate.
Qed.

Lemma str_rev_nonempty (s : string) : s ≠ "" → str_rev s ≠ "".
Proof.
  destruct s as [|c s]; [done|]. intros _. unfold str_rev. simpl.
  apply str_rev_append_nonempty. discriminate.
Qed.

Section fields.
Variable P : ascii → bool.

Lemma flush_field_ok cur acc :
  cur_ok P cur → Forall (field_ok P) acc → Forall (field_ok P) (strings.flush_field cur acc).
Proof.
  intros [Hs Hp] Hacc. destruct cur as [|c cur]; [exact Hacc|].
  cbn [strings.flush_field]. constructor; [|exact Hacc].
  split; [split|].
  - by apply str_rev_nonempty.
  - by rewrite all_bytes_rev.
  - by rewrite all_bytes_rev.
Qed.

Lemma cur_ok_nil : cur_ok P "".
Proof. by split. Qed.

Lemma cur_ok_cons c cur :
  unicode.asciiSpace c = false → P c = true → cur_ok P cur → cur_ok P (String c cur).
Proof. intros Hc Hp [Hs Hq]. split; simpl; [by rewrite Hc | by rewrite Hp]. Qed.

Lemma Fields_go_ok (n : nat) :
  ∀ s cur acc,
    (String.length s ≤ n)%nat →
    all_bytes P s = true → cur_ok P cur → Forall (field_ok P) acc →
    Forall (field_ok P) (strings.Fields_go s cur acc).
Proof.
  induction n as [|n IH]; intros s cur acc Hn Hs Hcur Hacc.
  { destruct s; [|simpl in Hn; lia]. cbn [strings.Fields_go].
    apply Forall_rev. by apply flush_field_ok. }
  destruct s as [|c0 s1]; cbn [strings.Fields_go].
  { apply Forall_rev. by apply flush_field_ok. }
  simpl in Hn, Hs. apply andb_true_iff in Hs as [Hc0 Hs1].
  destruct (unicode.asciiSpace c0) eqn:Ha.
  { apply IH; [lia|exact Hs1|apply cur_ok_nil|by apply flush_field_ok]. }
  pose proof (cur_ok_cons c0 cur Ha Hc0 Hcur) as Hcur'.
  destruct s1 as [|c1 s2].
  { apply Forall_rev. by apply flush_field_ok. }
  simpl in Hn. pose proof Hs1 as Hs1'. simpl in Hs1.
  apply andb_true_iff in Hs1 as [Hc1 Hs2].
  destruct (unicode.space2 c0 c1).
  { apply IH; [lia|exact Hs2|apply cur_ok_nil|by apply flush_field_ok]. }
  destruct s2 as [|c2 s3].
  { apply IH; [simpl; lia|exact Hs1'|exact Hcur'|exact Hacc]. }
  simpl in Hn. simpl in Hs2. apply andb_true_iff in Hs2 as [Hc2 Hs3].
  destruct (unicode.space3 c0 c1 c2).
  { apply IH; [lia|exact Hs3|apply cur_ok_nil|by apply flush_field_ok]. }
  apply IH; [simpl; lia|exact Hs1'|exact Hcur'|exact Hacc].
Qed.

Lemma Fields_ok (s : string) :
  all_bytes P s = true → Forall (field_ok P) (strings.Fields s).
Proof.
  intros Hs. unfold strings.Fields.
  apply (Fields_go_ok (String.length s)); [lia|exact Hs|apply cur_ok_nil|constructor].
Qed.

Lemma Join_all_bytes (fs : list string) (sep : string) :
  all_bytes P sep = true →
  Forall (λ f, all_bytes P f = true) fs →
  all_bytes P (strings.Join fs sep) = true.
Proof.
  intros Hsep Hfs. induction Hfs as [|f fs Hf Hfs IH]; [reflexivity|].
  cbn [strings.Join]. destruct fs as [|g fs]; [exact Hf|].
  rewrite !all_bytes_app, Hf, Hsep. exact IH.
Qed.

End fields.

Lemma all_bytes_true (s : string) : all_bytes (λ _, true) s = true.
Proof. induction s; simpl; auto. Qed.

(** The fields of any text are words. *)
Lemma Fields_words (s : string) : Forall is_word (strings.Fields s).
Proof.
  eapply Forall_impl; [apply (Fields_ok (λ _, true)), all_bytes_true|].
  by intros f [Hw _].
Qed.

(** ** The search handler *)

Lemma validatePagination_range (pageStr sizeStr : string) :
  1 ≤ (api.validatePagination pageStr sizeStr).1 ≤ strconv.maxInt
  ∧ 1 ≤ (api.validatePagination pageStr sizeStr).2 ≤ 50.
Proof.
  unfold api.validatePagination.
  assert (Hmax : strconv.maxInt = 9223372036854775807) by reflexivity.
  destruct (Atoi_cases pageStr) as [(p & -> & _ & Hpr)|(p & ep & -> & _)];
    destruct (Atoi_cases sizeStr) as [(z & -> & _ & Hzr)|(z & ez & -> & _)];
    cbn [fst snd];
    repeat match goal with
           | |- context [bool_decide ?P] =>
             first [rewrite (bool_decide_eq_false_2 P) by (intros HH; by apply HH)
                   |rewrite (bool_decide_eq_true_2 P) by discriminate]
           end;
    cbn [orb];
    repeat match goal with
           | |- context [?a <? 1] => destruct (Z.ltb_spec a 1)
           end;
    repeat match goal with
           | |- context [?a <? ?b] => destruct (Z.ltb_spec a b)
           end;
    cbn [fst snd]; lia.
Qed.

Section handler_more.
Context `{GoTypes} `{!Codec} `{!net.Parser}.
Import runtime.

(** X19.  A request whose query is missing, empty or only white space is
    answered with 400 and the fixed text "invalid query parameter"; the
    handler then reads no cache, calls no backend and changes nothing. *)
Theorem handler_blank_query h c w :
  strings.TrimSpace (api.Query c "q") = "" →
  api.Search h c w
  = (Ok {| api.status := 400; api.body := api.H_error "invalid query parameter" |},
     w).
Proof.
  intros Hq. unfold api.Search, api.validateSearchInput. rewrite Hq. reflexivity.
Qed.

(** X20.  When the query is valid, the cache has nothing usable and the
    backend query fails, the response is 500 with the fixed text "internal
    server error": the same body whatever the error was.  Cache, objects
    and pending write-backs are left as they were. *)
Theorem handler_backend_failure h c w query page size e :
  api.validateSearchInput (api.Query c "q") = (query, true) →
  api.validatePagination (api.DefaultQuery c "page" "1")
                         (api.DefaultQuery c "size" "10") = (page, size) →
  cached w (search.cacheKey query page size) = None →
  backend_error (es_reply w (request_of query page size)) = Some e →
  ∃ w', api.Search h c w
        = (Ok {| api.status := 500;
                 api.body := api.H_error "internal server error" |}, w')
        ∧ rdb w' = rdb w ∧ heap w' = heap w ∧ goroutines w' = goroutines w.
Proof.
  intros Hv Hpg Hc He. unfold api.Search. rewrite Hv, Hpg. cbn [negb].
  unfold bind, try. rewrite (Search_backend_error _ _ _ _ _ Hc He).
  eexists. split; [reflexivity|]. done.
Qed.

(** X21.  When the caller is not classified as restricted, or the
    moderator removes nothing, the response is 200 with the result exactly
    as the search produced it, filtered = false and no message, and the
    result object is not touched. *)
Theorem handler_unmoderated h c w query page size p w1 r :
  api.validateSearchInput (api.Query c "q") = (query, true) →
  api.validatePagination (api.DefaultQuery c "page" "1")
                         (api.DefaultQuery c "size" "10") = (page, size) →
  search.Search query page size w = (Ok p, w1) →
  heap w1 !! p = Some r →
  ip.IsChinaMainland (api.ClientIP c) = false
  ∨ (filter.Filter (api.h_filter h) (Hits r)).2 = 0 →
  api.Search h c w
  = (Ok {| api.status := 200; api.body := api.SearchJSON r false "" |}, w1).
Proof.
  intros Hv Hpg Hs Hp Hcase.
  rewrite (handler_success h c w query page size p w1 r Hv Hpg Hs Hp).
  destruct Hcase as [-> | ->]; [reflexivity|].
  by destruct (ip.IsChinaMainland _).
Qed.

(** X22.  The handler never hands an error to its caller: whatever the
    request and the world, it either panics or produces a response, and
    the status of a response is 200, 400 or 500. *)
Theorem handler_outcomes h c w :
  (api.Search h c w).1 = Panic
  ∨ ∃ resp, (api.Search h c w).1 = Ok resp
            ∧ (api.status resp = 200 ∨ api.status resp = 400
               ∨ api.status resp = 500).
Proof.
  assert (Hgoal : ∀ out : result api.Response * World,
             (out.1 = Panic ∨ ∃ resp, out.1 = Ok resp
                ∧ (api.status resp = 200 ∨ api.status resp = 400
                   ∨ api.status resp = 500)) →
             api.Search h c w = out →
             (api.Search h c w).1 = Panic
             ∨ ∃ resp, (api.Search h c w).1 = Ok resp
                       ∧ (api.status resp = 200 ∨ api.status resp = 400
                          ∨ api.status resp = 500)).
  { by intros out Hout ->. }
  assert (Hresp : ∀ code body (w2 : World),
             code = 200 ∨ code = 400 ∨ code = 500 →
             let out := (Ok {| api.status := code; api.body := body |}, w2) in
             out.1 = Panic ∨ ∃ resp, out.1 = Ok resp
               ∧ (api.status resp = 200 ∨ api.status resp = 400
                  ∨ api.status resp = 500)).
  { intros code body w2 Hcode. right. eexists. split; [reflexivity|exact Hcode]. }
  destruct (api.validateSearchInput (api.Query c "q")) as [query valid] eqn:Hv.
  destruct valid.
  2: { eapply Hgoal; [|unfold api.Search; rewrite Hv; reflexivity].
       apply Hresp. auto. }
  destruct (api.validatePagination (api.DefaultQuery c "page" "1")
                                   (api.DefaultQuery c "size" "10"))
    as [page size] eqn:Hpg.
  destruct (search.Search query page size w) as [[p|e|] w1] eqn:Hs.
  - destruct (heap w1 !! p) as [r|] eqn:Hp.
    + eapply Hgoal;
        [|exact (handler_success h c w query page size p w1 r Hv Hpg Hs Hp)].
      destruct (ip.IsChinaMainland _); [|apply Hresp; auto].
      destruct (0 <? _); apply Hresp; auto.
    + apply (Search_Ok_allocated w query page size p w1) in Hs as [r Hr].
      congruence.
  - eapply Hgoal;
      [|unfold api.Search; rewrite Hv, Hpg; cbn [negb];
        unfold bind, try; rewrite Hs; reflexivity].
    apply Hresp. auto.
  - eapply Hgoal;
      [|unfold api.Search; rewrite Hv, Hpg; cbn [negb];
        unfold bind, try; rewrite Hs; reflexivity].
    by left.
Qed.

End handler_more.

Section handler_request.
Context `{GoTypes} `{!Codec} `{!net.Parser}.
Import runtime.

Lemma wrap64_small (z : Z) : - 2 ^ 63 ≤ z < 2 ^ 63 → search.wrap64 z = z.
Proof. intros Hz. unfold search.wrap64. rewrite Z.mod_small; lia. Qed.

(** The handler sends the backend what its call of [Search] sends. *)
Lemma handler_es_calls h c w query page size :
  api.validateSearchInput (api.Query c "q") = (query, true) →
  api.validatePagination (api.DefaultQuery c "page" "1")
                         (api.DefaultQuery c "size" "10") = (page, size) →
  es_calls (api.Search h c w).2 = es_calls (search.Search query page size w).2.
Proof.
  intros Hv Hpg.
  destruct (search.Search query page size w) as [[p|e|] w1] eqn:Hs.
  - destruct (Search_Ok_allocated w query page size p w1 Hs) as [r Hp].
    rewrite (handler_success h c w query page size p w1 r Hv Hpg Hs Hp).
    destruct (ip.IsChinaMainland _); [|reflexivity].
    destruct (0 <? _); reflexivity.
  - unfold api.Search. rewrite Hv, Hpg. cbn [negb].
    unfold bind, try. rewrite Hs. reflexivity.
  - unfold api.Search. rewrite Hv, Hpg. cbn [negb].
    unfold bind, try. rewrite Hs. reflexivity.
Qed.

(** X23.  Whatever the request, the handler sends the backend at most one
    query, to the index "webpages".  Its size is the validated size,
    between 1 and 50; its text contains none of the bytes <, >, double
    quote and single quote; and for pages up to 184467440737095517 its
    offset is exactly (page - 1) * size, without wrap-around. *)
Theorem handler_backend_request h c w :
  let page := (api.validatePagination (api.DefaultQuery c "page" "1")
                                      (api.DefaultQuery c "size" "10")).1 in
  let size := (api.validatePagination (api.DefaultQuery c "page" "1")
                                      (api.DefaultQuery c "size" "10")).2 in
  es_calls (api.Search h c w).2 = es_calls w
  ∨ ∃ req,
      es_calls (api.Search h c w).2 = es_calls w ++ [req]
      ∧ es.WithIndex req = "webpages"
      ∧ es.size (es.WithBody req) = size
      ∧ 1 ≤ size ≤ 50
      ∧ all_bytes (λ b, negb (markup_byte b))
                  (es.multi_match_query (es.WithBody req)) = true
      ∧ (page ≤ 184467440737095517 →
         es.from (es.WithBody req) = (page - 1) * size
         ∧ 0 ≤ es.from (es.WithBody req)).
Proof.
  intros page size.
  pose proof (validatePagination_range (api.DefaultQuery c "page" "1")
                                       (api.DefaultQuery c "size" "10"))
    as [Hpage Hsize].
  fold page in Hpage. fold size in Hsize.
  destruct (api.validateSearchInput (api.Query c "q")) as [query valid] eqn:Hv.
  destruct valid.
  2: { left. unfold api.Search. rewrite Hv. reflexivity. }
  rewrite (handler_es_calls h c w query page size Hv
             (surjective_pairing _)).
  destruct (Search_es_calls w query page size) as [Hcalls|Hcalls];
    [by left|right].
  exists (request_of query page size). split; [exact Hcalls|].
  split; [reflexivity|]. split; [reflexivity|]. split; [exact Hsize|].
  split.
  - cbn [request_of es.WithBody es.multi_match_query].
    apply Join_all_bytes; [reflexivity|].
    assert (Hq : all_bytes (λ b, negb (markup_byte b)) query = true).
    { destruct (validateSearchInput_escaped (api.Query c "q")) as [s Hs].
      rewrite Hv in Hs. cbn [fst] in Hs. rewrite Hs.
      apply EscapeString_no_markup. }
    eapply Forall_impl; [exact (Fields_ok _ _ Hq)|]. by intros f [_ Hf].
  - intros Hbound. cbn [request_of es.WithBody es.from].
    rewrite (wrap64_small (page - 1)) by lia.
    rewrite wrap64_small by nia. nia.
Qed.

End handler_request.

(** Beyond that page the offset wraps around: the last page of the 64-bit
    range with size 50 asks the backend for offset -100. *)
Example offset_wraps :
  es.from (es.WithBody (request_of "go" 9223372036854775807 50)) = -100.
Proof. vm_compute. reflexivity. Qed.

(** ** Indexing a document *)

Section indexing_more.
Context `{GoTypes} `{!DocCodec}.

(** The document [Index] hands to [IndexDocument]. *)
Lemma Index_bound doc b :
  indexing.Index (inr doc) b
  = match indexing.IndexDocument
            {| ID := ID doc; Title := html.EscapeString (Title doc);
               Content := html.EscapeString (Content doc);
               URL := URL doc; Score := Score doc;
               Timestamp := Timestamp doc |} b with
    | (Some _, b') =>
      ({| indexing.status := 500;
          indexing.body := indexing.H_error "indexing failed" |}, b')
    | (None, b') =>
      ({| indexing.status := 200;
          indexing.body := indexing.H_status "indexed" |}, b')
    end.
Proof. reflexivity. Qed.

(** X24.  A request body that does not bind to a document is answered
    with 400, and a document whose encoding fails with 500; in both cases
    nothing is sent to the backend. *)
Theorem Index_without_request :
  (∀ err b,
      indexing.Index (inl err) b
      = ({| indexing.status := 400;
            indexing.body := indexing.H_error "invalid request body" |}, b))
  ∧ (∀ doc b err,
        Marshal_doc {| ID := ID doc; Title := html.EscapeString (Title doc);
                       Content := html.EscapeString (Content doc);
                       URL := URL doc; Score := Score doc;
                       Timestamp := Timestamp doc |} = inl err →
        indexing.Index (inr doc) b
        = ({| indexing.status := 500;
              indexing.body := indexing.H_error "indexing failed" |}, b)).
Proof.
  split; [reflexivity|].
  intros doc b err Hm. rewrite Index_bound. unfold indexing.IndexDocument.
  by rewrite Hm.
Qed.

(** X25.  A bound document that encodes is sent to the backend in exactly
    one request: to the index "webpages", under the identifier of the
    document as bound, with refresh on, and with the encoding of the
    document whose title and content are HTML-escaped and whose other
    fields are as bound.  The answer is 200 "indexed" when the backend
    answers without an error status, and otherwise 500 with the fixed text
    "indexing failed". *)
Theorem Index_request doc b data :
  Marshal_doc {| ID := ID doc; Title := html.EscapeString (Title doc);
                 Content := html.EscapeString (Content doc);
                 URL := URL doc; Score := Score doc;
                 Timestamp := Timestamp doc |} = inr data →
  let req := {| indexing.Index_ := "webpages"; indexing.DocumentID := ID doc;
                indexing.Body_ := data; indexing.Refresh := "true" |} in
  indexing.calls (indexing.Index (inr doc) b).2 = indexing.calls b ++ [req]
  ∧ indexing.reply (indexing.Index (inr doc) b).2 = indexing.reply b
  ∧ (indexing.Index (inr doc) b).1
    = match indexing.reply b req with
      | indexing.DoResponse false _ =>
        {| indexing.status := 200;
           indexing.body := indexing.H_status "indexed" |}
      | _ =>
        {| indexing.status := 500;
           indexing.body := indexing.H_error "indexing failed" |}
      end.
Proof.
  intros Hm req. rewrite Index_bound. unfold indexing.IndexDocument.
  rewrite Hm. cbn [ID]. fold req.
  destruct (indexing.reply b req) as [err|[|] text]; done.
Qed.

End indexing_more.

(** ** The crawler *)

Section crawler_more.
Context `{GoTypes}.

(** X26.  [FetchAndClean] never returns a page together with an error.
    An error of the fetch or of the parser is returned as it is; a page
    whose cleaned content is shorter than 50 bytes gives neither a page
    nor an error.  The banned domains of the cleaner play no part: the
    outcome is the same for every cleaner. *)
Theorem FetchAndClean_outcomes c url fetched now :
  ¬ (is_Some (crawler.FetchAndClean c url fetched now).1
     ∧ is_Some (crawler.FetchAndClean c url fetched now).2)
  ∧ (∀ err, fetched = crawler.GetFailed err ∨ fetched = crawler.Got (inl err) →
            crawler.FetchAndClean c url fetched now = (None, Some err))
  ∧ (crawler.FetchAndClean c url fetched now = (None, None)
     ↔ ∃ doc, fetched = crawler.Got (inr doc)
              ∧ str_len (strings.Join
                           (strings.Fields (strings.TrimSpace (crawler.body_text doc)))
                           " ") < 50)
  ∧ (∀ c', crawler.FetchAndClean c' url fetched now
           = crawler.FetchAndClean c url fetched now).
Proof.
  split; [|split; [|split]].
  - intros [[page Hpage] [err Herr]].
    destruct fetched as [e|[e|doc]]; cbn [crawler.FetchAndClean] in Hpage, Herr;
      try discriminate.
    destruct (_ <? 50); discriminate.
  - intros err [-> | ->]; reflexivity.
  - split.
    + destruct fetched as [err|[err|doc]]; cbn [crawler.FetchAndClean];
        try discriminate.
      destruct (Z.ltb_spec (str_len (strings.Join
                  (strings.Fields (strings.TrimSpace (crawler.body_text doc))) " ")) 50);
        [|discriminate].
      intros _. by exists doc.
    + intros (doc & -> & Hlen). cbn [crawler.FetchAndClean].
      apply Z.ltb_lt in Hlen. by rewrite Hlen.
  - reflexivity.
Qed.

(** X27.  The content of a page that [FetchAndClean] returns is at least
    50 bytes long and made of words separated by single spaces: no leading
    or trailing space, no run of spaces, and no other ASCII white space.
    The page carries the URL that was asked for and no keywords. *)
Theorem FetchAndClean_content c url fetched now page err :
  crawler.FetchAndClean c url fetched now = (Some page, err) →
  err = None
  ∧ crawler.URL_ page = url
  ∧ crawler.Keywords page = []
  ∧ 50 ≤ str_len (crawler.Content_ page)
  ∧ ∃ words, crawler.Content_ page = strings.Join words " "
             ∧ Forall is_word words.
Proof.
  destruct fetched as [e|[e|doc]]; cbn [crawler.FetchAndClean]; try discriminate.
  destruct (Z.ltb_spec (str_len (strings.Join
              (strings.Fields (strings.TrimSpace (crawler.body_text doc))) " ")) 50)
    as [|Hlen]; [discriminate|].
  intros [= <- <-]. cbn [crawler.URL_ crawler.Keywords crawler.Content_].
  split; [reflexivity|]. split; [reflexivity|]. split; [reflexivity|].
  split; [exact Hlen|].
  eexists. split; [reflexivity|]. apply Fields_words.
Qed.

End crawler_more.

(** ** Moderation and the cache *)

Section moderated_cache.
Context `{GoTypes} `{!Codec} `{!net.Parser}.
Import runtime.

(** X28.  The handler withholds documents by assigning to the very result
    object that the pending write-back of [Search] encodes.  So when a
    restricted caller's request misses the cache and the moderator removes
    something, a write-back that runs after the handler stores the result
    with the kept hits only: the entry that later requests for the same
    key, from any caller, are answered from. *)
Theorem moderated_result_cached h c w query page size text body total took documents :
  api.validateSearchInput (api.Query c "q") = (query, true) →
  api.validatePagination (api.DefaultQuery c "page" "1")
                         (api.DefaultQuery c "size" "10") = (page, size) →
  cached w (search.cacheKey query page size) = None →
  es_reply w (request_of query page size) = es.Response false text (inr body) →
  search.parseResponse body = Some (total, took, documents) →
  ip.IsChinaMainland (api.ClientIP c) = true →
  0 < (filter.Filter (api.h_filter h) documents).2 →
  redis.reachable (rdb w) = true →
  ∃ resp w1 w2,
    api.Search h c w = (Ok resp, w1)
    ∧ sched.schedule (length (goroutines w1) - 1) w1 = (Ok (), w2)
    ∧ redis.Get (rdb w2) (search.cacheKey query page size)
      = (default "" (Marshal {| Total := total;
                                Hits := (filter.Filter (api.h_filter h) documents).1;
                                Took := took;
                                Suggestions := search.getSuggestions query |}),
         None).
Proof.
  intros Hv Hpg Hc Hr Hp Hcn Hcount Hreach.
  pose proof (Search_fetched _ _ _ _ _ _ _ _ _ Hc Hr Hp) as Hs. cbv zeta in Hs.
  erewrite (handler_success h c w query page size _ _ _ Hv Hpg Hs);
    [|cbn [heap]; apply lookup_insert_eq].
  rewrite Hcn. cbn [Hits]. apply Z.ltb_lt in Hcount. rewrite Hcount.
  do 3 eexists. split; [reflexivity|]. split.
  - eapply schedule_cacheResult; cbn [goroutines heap set_heap].
    + apply lookup_last_app.
    + apply lookup_insert_eq.
  - cbn [rdb set_rdb set_heap set_goroutines]. unfold redis.Set_, redis.Get.
    rewrite Hreach. cbn [redis.reachable redis.entries].
    rewrite lookup_insert_eq. reflexivity.
Qed.

End moderated_cache.

(** ** The further properties at the sample inputs *)

Section more_runs.
#[local] Existing Instance sample.Types.
#[local] Existing Instance sample.Parser.
#[local] Existing Instance sample.Codec.
#[local] Existing Instance more.DocCodec.
Import runtime.

Lemma Filter_monotone_witness :
  (filter.Filter filter.NewService [sample.tourDoc; sample.videoDoc]).1
    `sublist_of` (filter.Filter sample.emptyService [sample.tourDoc; sample.videoDoc]).1
  ∧ (filter.Filter sample.emptyService [sample.tourDoc; sample.videoDoc]).2
    ≤ (filter.Filter filter.NewService [sample.tourDoc; sample.videoDoc]).2.
Proof.
  apply (Filter_monotone sample.emptyService filter.NewService).
  intros domain [v Hv]. vm_compute in Hv. discriminate.
Defined.

Lemma IsChinaMainland_ipv4_witness :
  ip.IsChinaMainland "8.8.8.8" = true
  ↔ 1 ≤ net.octet Byte.x08 ≤ 100 ∨ net.octet Byte.x08 = 127
    ∨ (net.octet Byte.x08 = 172 ∧ 16 ≤ net.octet Byte.x08 ≤ 31)
    ∨ (net.octet Byte.x08 = 192 ∧ net.octet Byte.x08 = 168).
Proof.
  apply (IsChinaMainland_ipv4 "8.8.8.8" Byte.x08 Byte.x08 Byte.x08 Byte.x08).
  right. vm_compute. reflexivity.
Defined.

Lemma IsChinaMainland_ipv6_witness :
  ip.IsChinaMainland "::1" = true
  ↔ net.octet <$> net.IPv6loopback = net.octet <$> net.IPv6loopback.
Proof.
  apply (IsChinaMainland_ipv6 "::1" net.IPv6loopback).
  - vm_compute. reflexivity.
  - reflexivity.
  - vm_compute. reflexivity.
Defined.

Lemma cacheKey_inj_witness :
  search.cacheKey "a:1" 2 3 = "search:a:1:2:3"
  ∧ ("a:1" = "a:1" ∧ 2 = 2 ∧ 3 = 3).
Proof.
  split; [vm_compute; reflexivity|].
  apply (cacheKey_inj "a:1" "a:1" 2 2 3 3). reflexivity.
Defined.

Lemma Search_malformed_body_panics_witness :
  search.Search "go" 1 10 more.emptyBodyWorld
  = (Panic, set_es_calls (es_calls more.emptyBodyWorld ++ [request_of "go" 1 10])
                         more.emptyBodyWorld).
Proof.
  apply (Search_malformed_body_panics more.emptyBodyWorld "go" 1 10 "[200 OK]" []).
  - vm_compute. reflexivity.
  - reflexivity.
  - left. reflexivity.
Defined.

Lemma parseResponse_documents_witness :
  ∃ hits hitList,
    es.index sample.twoHits "hits" = Some (es.JObj hits)
    ∧ es.index hits "hits" = Some (es.JArr hitList)
    ∧ length [sample.tourDoc; sample.videoDoc] = length hitList
    ∧ Forall2 (λ hit doc, ∃ h, hit = es.JObj h
                               ∧ es.index h "_id" = Some (es.JStr (ID doc)))
              hitList [sample.tourDoc; sample.videoDoc]
    ∧ Forall (λ doc, Timestamp doc = zeroTime) [sample.tourDoc; sample.videoDoc].
Proof.
  apply (parseResponse_documents sample.twoHits 2 3).
  vm_compute. reflexivity.
Defined.

Lemma Search_write_back_entry_witness :
  ∃ p w1 w2,
    search.Search "go" 1 10 sample.coldWorld = (Ok p, w1)
    ∧ sched.schedule (length (goroutines w1) - 1) w1 = (Ok (), w2)
    ∧ redis.entries (rdb w2) !! search.cacheKey "go" 1 10
      = Some (default "" (Marshal {| Total := 2;
                                     Hits := [sample.tourDoc; sample.videoDoc];
                                     Took := 3;
                                     Suggestions := search.getSuggestions "go" |}),
              300000000000)
    ∧ (∀ key, key ≠ search.cacheKey "go" 1 10 →
              redis.entries (rdb w2) !! key
              = redis.entries (rdb sample.coldWorld) !! key)
    ∧ goroutines w2 = goroutines sample.coldWorld.
Proof.
  apply (Search_write_back_entry sample.coldWorld "go" 1 10 "[200 OK]"
           sample.twoHits).
  - vm_compute. reflexivity.
  - reflexivity.
  - vm_compute. reflexivity.
  - reflexivity.
Defined.

Lemma Search_cache_unreachable_witness :
  ∃ p w1 w2,
    search.Search "go" 1 10 more.offlineWorld = (Ok p, w1)
    ∧ heap w1 !! p = Some {| Total := 2;
                             Hits := [sample.tourDoc; sample.videoDoc];
                             Took := 3;
                             Suggestions := search.getSuggestions "go" |}
    ∧ sched.schedule (length (goroutines w1) - 1) w1 = (Ok (), w2)
    ∧ rdb w2 = rdb more.offlineWorld
    ∧ cached w2 (search.cacheKey "go" 1 10) = None
    ∧ es_calls (search.Search "go" 1 10 w2).2
      = es_calls more.offlineWorld ++ [request_of "go" 1 10; request_of "go" 1 10].
Proof.
  apply (Search_cache_unreachable more.offlineWorld "go" 1 10 "[200 OK]"
           sample.twoHits).
  - reflexivity.
  - reflexivity.
  - vm_compute. reflexivity.
Defined.

Lemma GetOrSet_hit_witness :
  cache.GetOrSet "search:go:1:10" 1000 (fail "not called") sample.warmWorld
  = (Ok (any_of_string "7 3"), sample.warmWorld).
Proof.
  apply (GetOrSet_hit "search:go:1:10" 1000 (fail "not called") sample.warmWorld).
  vm_compute. reflexivity.
Defined.

Lemma handler_blank_query_witness :
  api.Search sample.handler more.blankRequest sample.coldWorld
  = (Ok {| api.status := 400; api.body := api.H_error "invalid query parameter" |},
     sample.coldWorld).
Proof.
  apply (handler_blank_query sample.handler more.blankRequest sample.coldWorld).
  vm_compute. reflexivity.
Defined.

Lemma handler_backend_failure_witness :
  ∃ w', api.Search sample.handler sample.localRequest (sample.world sample.downReply)
        = (Ok {| api.status := 500;
                 api.body := api.H_error "internal server error" |}, w')
        ∧ rdb w' = rdb (sample.world sample.downReply)
        ∧ heap w' = heap (sample.world sample.downReply)
        ∧ goroutines w' = goroutines (sample.world sample.downReply).
Proof.
  apply (handler_backend_failure sample.handler sample.localRequest
           (sample.world sample.downReply) "go" 1 10
           "dial tcp: connection refused").
  - vm_compute. reflexivity.
  - vm_compute. reflexivity.
  - vm_compute. reflexivity.
  - vm_compute. reflexivity.
Defined.

Lemma handler_unmoderated_witness :
  api.Search sample.handler more.otherRequest sample.coldWorld
  = (Ok {| api.status := 200; api.body := api.SearchJSON sample.goResult false "" |},
     sample.fetchedWorld).
Proof.
  apply (handler_unmoderated sample.handler more.otherRequest sample.coldWorld
           "go" 1 10 0%nat).
  - vm_compute. reflexivity.
  - vm_compute. reflexivity.
  - vm_compute. reflexivity.
  - vm_compute. reflexivity.
  - left. vm_compute. reflexivity.
Defined.

Lemma Index_without_request_witness :
  indexing.Index (inl "EOF") more.backend
  = ({| indexing.status := 400;
        indexing.body := indexing.H_error "invalid request body" |}, more.backend)
  ∧ indexing.Index (inr more.nanDoc) more.backend
    = ({| indexing.status := 500;
          indexing.body := indexing.H_error "indexing failed" |}, more.backend).
Proof.
  split.
  - apply (proj1 Index_without_request "EOF" more.backend).
  - apply (proj2 Index_without_request more.nanDoc more.backend
                 "json: unsupported value").
    vm_compute. reflexivity.
Defined.

Lemma Index_request_witness :
  indexing.calls (indexing.Index (inr more.boldDoc) more.backend).2
  = indexing.calls more.backend
    ++ [{| indexing.Index_ := "webpages"; indexing.DocumentID := "p<1>";
           indexing.Body_ :=
             "p<1>" +:+ String "010" ("&lt;b&gt;Go&lt;/b&gt;" +:+ String "010"
                                        "fast &amp; small");
           indexing.Refresh := "true" |}]
  ∧ indexing.reply (indexing.Index (inr more.boldDoc) more.backend).2
    = indexing.reply more.backend
  ∧ (indexing.Index (inr more.boldDoc) more.backend).1
    = {| indexing.status := 200; indexing.body := indexing.H_status "indexed" |}.
Proof.
  apply (Index_request more.boldDoc more.backend). vm_compute. reflexivity.
Defined.

Lemma FetchAndClean_content_witness :
  crawler.FetchAndClean crawler.NewCleaner "https://ads.com/go"
    (crawler.Got (inr more.selections)) zeroTime = (Some more.cleanedPage, None)
  ∧ ((None : option error) = None
     ∧ crawler.URL_ more.cleanedPage = "https://ads.com/go"
     ∧ crawler.Keywords more.cleanedPage = []
     ∧ 50 ≤ str_len (crawler.Content_ more.cleanedPage)
     ∧ ∃ words, crawler.Content_ more.cleanedPage = strings.Join words " "
                ∧ Forall is_word words).
Proof.
  split; [vm_compute; reflexivity|].
  apply (FetchAndClean_content crawler.NewCleaner "https://ads.com/go"
           (crawler.Got (inr more.selections)) zeroTime more.cleanedPage None).
  vm_compute. reflexivity.
Defined.

Lemma moderated_result_cached_witness :
  ∃ resp w1 w2,
    api.Search sample.handler sample.localRequest sample.coldWorld = (Ok resp, w1)
    ∧ sched.schedule (length (goroutines w1) - 1) w1 = (Ok (), w2)
    ∧ redis.Get (rdb w2) (search.cacheKey "go" 1 10)
      = (default "" (Marshal {| Total := 2;
                                Hits := (filter.Filter (api.h_filter sample.handler)
                                           [sample.tourDoc; sample.videoDoc]).1;
                                Took := 3;
                                Suggestions := search.getSuggestions "go" |}),
         None).
Proof.
  apply (moderated_result_cached sample.handler sample.localRequest sample.coldWorld
           "go" 1 10 "[200 OK]" sample.twoHits).
  - vm_compute. reflexivity.
  - vm_compute. reflexivity.
  - vm_compute. reflexivity.
  - reflexivity.
  - vm_compute. reflexivity.
  - vm_compute. reflexivity.
  - vm_compute. reflexivity.
  - reflexivity.
Defined.

End more_runs.

Section boxed_runs.
#[local] Existing Instance boxed.Types.
#[local] Existing Instance boxed.Codec.
Import runtime.

(** The text the cache gives back for a number is not that number. *)
Remark boxed_answer_text :
  any_of_string (default "" (Marshal_any boxed.answer)) = inl "42"
  ∧ any_of_string (default "" (Marshal_any boxed.answer)) ≠ boxed.answer.
Proof. split; [vm_compute; reflexivity | vm_compute; discriminate]. Qed.

Lemma GetOrSet_miss_then_hit_witness :
  ∃ w2 w3 kept,
    cache.GetOrSet "hot" time.Minute (ret boxed.answer) boxed.world
    = (Ok boxed.answer, w2)
    ∧ goroutines w2
      = goroutines boxed.world ++ [cacheData "hot" boxed.answer time.Minute]
    ∧ sched.schedule (length (goroutines w2) - 1) w2 = (Ok (), w3)
    ∧ redis.entries (rdb w3) !! "hot"
      = Some (default "" (Marshal_any boxed.answer), kept)
    ∧ kept = redis.expiry time.Minute (snd <$> redis.entries (rdb boxed.world) !! "hot")
    ∧ (0 < time.Minute → time.Minute `rem` time.Second = 0 → kept = time.Minute)
    ∧ (0 < time.Minute < time.Millisecond → kept = time.Millisecond)
    ∧ (time.Minute = 0 → kept = 0)
    ∧ cache.GetOrSet "hot" (2 * time.Minute) (fail "not called") w3
      = (Ok (any_of_string (default "" (Marshal_any boxed.answer))), w3).
Proof.
  apply (GetOrSet_miss_then_hit "hot" time.Minute (2 * time.Minute)
           (ret boxed.answer) (fail "not called") boxed.world boxed.answer
           boxed.world).
  - vm_compute. discriminate.
  - reflexivity.
  - reflexivity.
Defined.

End boxed_runs.
